(** * PDF Render API: the renderer wrapper and its HTTP routes

    A shallow embedding of the class [PdfGenerator]
    ([src/services/pdfGenerator.ts]; the [puppeteer-core] variant of the
    file differs only in how the executable is found and in the launch
    flags) and of the three render routes of the Express application
    (the handlers registered with [app.post]), followed by the
    properties of the specification that were checked against them.

    The headless browser is an external collaborator.  It is modelled as
    an oracle that settles every call from the transcript of the calls
    made so far; the transcript is part of the state, so that "which
    engine calls were made, in which order, with which arguments and
    with which outcome" can be stated and proved.  Handlers that run
    alone are computations in a state-and-exception monad; callers of
    [initializeBrowser] that interleave at its [await] are a pool of
    small state machines driven by a schedule. *)

From Stdlib Require Import ZArith NArith List String Ascii Lia.
From Stdlib Require Import Strings.Byte.
From Stdlib Require Import Floats.SpecFloat.
From stdpp Require Import base option list gmap strings.

Set Warnings "-register-all".
Set Default Proof Using "Type".

(** ** JavaScript data *)

(** A JavaScript string is a sequence of UTF-16 code units. *)
Abbreviation jsstring := (list N).

(** [js "text"] is the JavaScript string literal ['text']. *)
Definition js (s : string) : jsstring :=
  map N_of_ascii (list_ascii_of_string s).

(** The values a parsed JSON request body can carry, plus [undefined]
    (what reading an absent property yields).  Numbers are IEEE-754
    doubles. *)
Inductive value : Type :=
| VUndefined
| VNull
| VBool (b : bool)
| VNum (x : spec_float)
| VStr (s : jsstring)
| VArr (items : list value)
| VObj (props : gmap jsstring value).

(** [!!v]: ToBoolean. *)
Definition truthy (v : value) : bool :=
  match v with
  | VUndefined | VNull => false
  | VBool b => b
  | VNum (S754_zero _) | VNum S754_nan => false
  | VNum _ => true
  | VStr [] => false
  | VStr _ => true
  | VArr _ | VObj _ => true
  end.

(** [typeof v === 'string'] *)
Definition is_string (v : value) : bool :=
  match v with VStr _ => true | _ => false end.

(** [a || b] *)
Definition js_or (a b : value) : value := if truthy a then a else b.

(** [v !== false] *)
Definition strict_ne_false (v : value) : bool :=
  match v with VBool false => false | _ => true end.

(** [o.k], the read of a named property: the own property of an
    object, [undefined] when it has none.  The names read here
    ([htmlTemplate], [fileName], [top], ...) are not properties of
    strings, numbers, booleans or arrays.  It is never applied to
    [null] or [undefined], where JavaScript throws. *)
Definition get (o : value) (k : string) : value :=
  match o with
  | VObj props => default VUndefined (props !! js k)
  | _ => VUndefined
  end.

(** What a [throw] carries: an [Error] instance with its [message], or
    any other value. *)
Inductive thrown : Type :=
| ErrorObject (message : jsstring)
| NotAnError (v : value).

(** [new Error(m)] *)
Definition new_Error (m : string) : thrown := ErrorObject (js m).

(** The settlement of a promise (or the completion of a statement):
    a value, or a thrown exception. *)
Inductive result (A : Type) : Type :=
| Ok (a : A)
| Throw (e : thrown).
Arguments Ok {A} a.
Arguments Throw {A} e.

Definition is_ok {A} (r : result A) : bool :=
  match r with Ok _ => true | Throw _ => false end.

(** ** [PdfMargin], [GeneratePdfOptions] and the engine's print parameters *)

(** [GeneratePdfOptions]: the three optional fields.  The routes copy
    them from the request body unchecked, so at run time each holds an
    arbitrary JSON value, [VUndefined] when absent. *)
Record GeneratePdfOptions : Type := {
  paperSize : value;
  margin : value;
  printBackground : value
}.

Module PDFOptions.
(** The object literal [pdfOptions] handed to [page.pdf]. *)
Record t : Type := {
  format : value;
  margin : value;
  printBackground : bool
}.
End PDFOptions.

(** ** The external engine *)

Definition Browser := nat.
Definition Page := nat.

(** One entry of the transcript: a call to the engine together with how
    it settled, or a line written with [console.error]. *)
Inductive event : Type :=
| EvLaunch (r : result Browser)
| EvNewPage (b : Browser) (r : result Page)
| EvSetContent (p : Page) (html : value) (r : result unit)
| EvPdf (p : Page) (o : PDFOptions.t) (r : result (list byte))
| EvPageClose (p : Page) (r : result unit)
| EvBrowserClose (b : Browser) (r : result unit)
| EvConsoleError (prefix : jsstring) (e : thrown).

(** The engine: each operation settles as a function of the transcript
    so far and of its arguments. *)
Record Engine : Type := {
  launch : list event -> result Browser;
  newPage : list event -> Browser -> result Page;
  setContent : list event -> Page -> value -> result unit;
  pdf : list event -> Page -> PDFOptions.t -> result (list byte);
  pageClose : list event -> Page -> result unit;
  browserClose : list event -> Browser -> result unit
}.

(** ** State and effects *)

(** The field [this.browser] of the one [PdfGenerator] of the process,
    and the transcript. *)
Record World : Type := {
  browser : option Browser;
  trace : list event
}.

Definition log (ev : event) (w : World) : World :=
  {| browser := browser w; trace := trace w ++ [ev] |}.

(** Computations that read and write the world and may throw.  A throw
    keeps the effects made before it. *)
Definition M (A : Type) : Type := World -> result A * World.

#[global] Instance M_ret : MRet M := fun A a w => (Ok a, w).

#[global] Instance M_bind : MBind M := fun A B f m w =>
  match m w with
  | (Ok a, w') => f a w'
  | (Throw e, w') => (Throw e, w')
  end.

#[global] Instance M_throw : MThrow thrown M := fun A e w => (Throw e, w).

(** [try { m } catch (error) { h error }] *)
Definition try_catch {A} (m : M A) (h : thrown -> M A) : M A := fun w =>
  match m w with
  | (Ok a, w') => (Ok a, w')
  | (Throw e, w') => h e w'
  end.

Definition get_browser : M (option Browser) := fun w => (Ok (browser w), w).

Definition set_browser (b : option Browser) : M unit := fun w =>
  (Ok tt, {| browser := b; trace := trace w |}).

(** An awaited engine call: the oracle settles it, the transcript
    records it. *)
Definition call {A} (settle : list event -> result A) (ev : result A -> event) : M A :=
  fun w => let r := settle (trace w) in (r, log (ev r) w).

Definition console_error (prefix : string) (e : thrown) : M unit := fun w =>
  (Ok tt, log (EvConsoleError (js prefix) e) w).

(** ** [Buffer.prototype.toString('base64')]

    Node's encoder: the standard alphabet of RFC 4648, three bytes to
    four characters, [=] padding. *)

Definition base64_alphabet : jsstring :=
  js "ABCDEFGHIJKLMNOPQRSTUVWXYZabcdefghijklmnopqrstuvwxyz0123456789+/".

Definition base64_char (i : N) : N := nth (N.to_nat i) base64_alphabet 0%N.

Definition base64_pad : N := 61%N.

Fixpoint base64 (bs : list byte) : jsstring :=
  match bs with
  | [] => []
  | [a] =>
      let a := Byte.to_N a in
      [base64_char (N.shiftr a 2);
       base64_char (N.shiftl (N.land a 3) 4);
       base64_pad; base64_pad]
  | [a; b] =>
      let a := Byte.to_N a in
      let b := Byte.to_N b in
      [base64_char (N.shiftr a 2);
       base64_char (N.lor (N.shiftl (N.land a 3) 4) (N.shiftr b 4));
       base64_char (N.shiftl (N.land b 15) 2);
       base64_pad]
  | a :: b :: c :: rest =>
      let a := Byte.to_N a in
      let b := Byte.to_N b in
      let c := Byte.to_N c in
      base64_char (N.shiftr a 2)
      :: base64_char (N.lor (N.shiftl (N.land a 3) 4) (N.shiftr b 4))
      :: base64_char (N.lor (N.shiftl (N.land b 15) 2) (N.shiftr c 6))
      :: base64_char (N.land c 63)
      :: base64 rest
  end.

(** The bytes of an ASCII text, for test vectors. *)
Definition bytes_of (s : string) : list byte := list_byte_of_string s.

(** ** [class PdfGenerator] *)

Section PdfGenerator.
Variable eng : Engine.

(** [initializeBrowser] run without interruption (the interleaved
    version is [init_step] below). *)
Definition initializeBrowser : M unit :=
  b ← get_browser;
  match b with
  | None => h ← call (launch eng) EvLaunch; set_browser (Some h)
  | Some _ => mret tt
  end.

(** The object literal of "Step 3: Set PDF options";
    [options?.f] is [undefined] when [options] is. *)
Definition pdfOptions (options : option GeneratePdfOptions) : PDFOptions.t :=
  let opt (f : GeneratePdfOptions -> value) := from_option f VUndefined options in
  {| PDFOptions.format := js_or (opt paperSize) (VStr (js "A4"));
     PDFOptions.margin :=
       js_or (opt margin)
         (VObj (<[js "top" := VStr (js "20px")]>
               (<[js "bottom" := VStr (js "20px")]>
               (<[js "left" := VStr (js "20px")]>
               (<[js "right" := VStr (js "20px")]> ∅)))));
     PDFOptions.printBackground := strict_ne_false (opt printBackground) |}.

Definition generatePdfBuffer (htmlTemplate : value) (options : option GeneratePdfOptions)
  : M (list byte) :=
  try_catch
    ((if negb (truthy htmlTemplate) || negb (is_string htmlTemplate)
      then mthrow (new_Error "HTML Template Not Found or Invalid!")
      else mret tt) ;;
     initializeBrowser ;;
     b ← get_browser;
     match b with
     | None => mthrow (new_Error "Failed to initialize browser")
     | Some br =>
         page ← call (fun h => newPage eng h br) (EvNewPage br);
         call (fun h => setContent eng h page htmlTemplate)
              (EvSetContent page htmlTemplate) ;;
         pdfBuffer ← call (fun h => pdf eng h page (pdfOptions options))
                          (EvPdf page (pdfOptions options));
         call (fun h => pageClose eng h page) (EvPageClose page) ;;
         mret pdfBuffer
     end)
    (fun error =>
       console_error "Error occurred during PDF generation from HTML template: " error ;;
       mthrow error).

(** [generatePdf]: the buffer, then [toString('base64')]. *)
Definition generatePdf (htmlTemplate : value) (options : option GeneratePdfOptions)
  : M jsstring :=
  pdfBuffer ← generatePdfBuffer htmlTemplate options;
  mret (base64 pdfBuffer).

Definition closeBrowser : M unit :=
  b ← get_browser;
  match b with
  | Some br => call (fun h => browserClose eng h br) (EvBrowserClose br) ;; set_browser None
  | None => mret tt
  end.
End PdfGenerator.

(** ** The Express application *)

(** What a handler has made of [res] when it returns. *)
Inductive header_value : Type :=
| HText (s : jsstring)
| HNumber (n : nat).

Inductive payload : Type :=
| NoBody
| Json (v : value)
| Text (s : jsstring)
| Binary (b : list byte).

Record Response : Type := {
  statusCode : nat;
  headers : gmap jsstring header_value;
  body : payload
}.

(** A fresh [res]: status 200, nothing set, nothing sent. *)
Definition res : Response := {| statusCode := 200; headers := ∅; body := NoBody |}.

Definition status (code : nat) (r : Response) : Response :=
  {| statusCode := code; headers := headers r; body := body r |}.

Definition setHeader (name : string) (v : header_value) (r : Response) : Response :=
  {| statusCode := statusCode r; headers := <[js name := v]> (headers r); body := body r |}.

Definition send (b : payload) (r : Response) : Response :=
  {| statusCode := statusCode r; headers := headers r; body := b |}.

Definition json (v : value) (r : Response) : Response := send (Json v) r.

(** The object literal [{ error: e, message: m }]. *)
Definition error_object (e m : jsstring) : value :=
  VObj (<[js "error" := VStr e]> (<[js "message" := VStr m]> ∅)).

(** [error instanceof Error ? error.message : 'Unknown error occurred'] *)
Definition message_of (error : thrown) : jsstring :=
  match error with
  | ErrorObject m => m
  | NotAnError _ => js "Unknown error occurred"
  end.

(** The 400 answer of the input validation, the same in the three routes. *)
Definition invalid_request : Response :=
  json (error_object (js "Invalid request")
                     (js "htmlTemplate is required and must be a string"))
       (status 400 res).

(** The [catch] block, the same in the three routes. *)
Definition generation_failed (error : thrown) : M Response :=
  console_error "Error generating PDF:" error ;;
  mret (json (error_object (js "PDF generation failed") (message_of error))
             (status 500 res)).

(** The character class [[a-zA-Z0-9-_]] on code units. *)
Definition safe_char (c : N) : bool :=
  ((97 <=? c) && (c <=? 122) || (65 <=? c) && (c <=? 90) || (48 <=? c) && (c <=? 57)
   || (c =? 45) || (c =? 95))%N.

Definition underscore : N := 95%N.

(** The code unit of the double quote. *)
Definition dquote : N := 34%N.

(** The text of the [TypeError] raised when [.replace] is called on a
    value that has no such method. *)
Definition replace_is_not_a_function : thrown :=
  ErrorObject (js "(fileName || " ++ [dquote] ++ js "document" ++ [dquote]
               ++ js ").replace is not a function").

(** [v.replace(/[^a-zA-Z0-9-_]/g, '_')]: on a string every code unit
    outside the class becomes an underscore; numbers, booleans, arrays
    and parsed JSON objects have no callable [replace]. *)
Definition replace_unsafe (v : value) : result jsstring :=
  match v with
  | VStr s => Ok (map (fun c => if safe_char c then c else underscore) s)
  | _ => Throw replace_is_not_a_function
  end.

(** The template literal [`attachment; filename="${name}.pdf"`]. *)
Definition content_disposition (name : jsstring) : jsstring :=
  js "attachment; filename=" ++ [dquote] ++ name ++ js ".pdf" ++ [dquote].

Section Routes.
Variable eng : Engine.

(** [req.body] as left by [express.json()]: an object. *)
Implicit Type body : gmap jsstring value.

(** The destructuring [const { k } = req.body]. *)
Definition field body (k : string) : value := get (VObj body) k.

(** [POST /api/Utility/GeneratePdf] *)
Definition post_Utility_GeneratePdf body : M Response :=
  try_catch
    (let htmlTemplate := field body "htmlTemplate" in
     if negb (truthy htmlTemplate) || negb (is_string htmlTemplate)
     then mret invalid_request
     else
       pdfBase64 ← generatePdf eng htmlTemplate None;
       mret (send (Text pdfBase64)
               (setHeader "Content-Type" (HText (js "text/plain")) res)))
    generation_failed.

(** The object literal built under "Build options". *)
Definition build_options body : GeneratePdfOptions :=
  {| paperSize := field body "paperSize";
     margin := field body "margin";
     printBackground := field body "printBackground" |}.

(** [POST /api/pdf/generate] *)
Definition post_pdf_generate body : M Response :=
  try_catch
    (let htmlTemplate := field body "htmlTemplate" in
     if negb (truthy htmlTemplate) || negb (is_string htmlTemplate)
     then mret invalid_request
     else
       let options := build_options body in
       pdfBase64 ← generatePdf eng htmlTemplate (Some options);
       mret (json (VObj (<[js "success" := VBool true]>
                        (<[js "pdf" := VStr pdfBase64]>
                        (<[js "message" := VStr (js "PDF generated successfully")]> ∅))))
               (status 200 res)))
    generation_failed.

(** [POST /api/pdf/download] *)
Definition post_pdf_download body : M Response :=
  try_catch
    (let htmlTemplate := field body "htmlTemplate" in
     let fileName := field body "fileName" in
     if negb (truthy htmlTemplate) || negb (is_string htmlTemplate)
     then mret invalid_request
     else
       let options := build_options body in
       pdfBuffer ← generatePdfBuffer eng htmlTemplate (Some options);
       match replace_unsafe (js_or fileName (VStr (js "document"))) with
       | Throw e => mthrow e
       | Ok sanitizedFileName =>
           mret (send (Binary pdfBuffer)
                  (setHeader "Content-Length" (HNumber (length pdfBuffer))
                  (setHeader "Content-Disposition"
                             (HText (content_disposition sanitizedFileName))
                  (setHeader "Content-Type" (HText (js "application/pdf")) res))))
       end)
    generation_failed.
End Routes.

(** ** Callers of [initializeBrowser] that interleave

    An [async] function runs without interruption up to an [await] and
    gives way there.  [initializeBrowser] has one [await], on the promise
    of [puppeteer.launch]: a caller is at the entry of the function,
    suspended on the launch it has started, or has returned. *)

Inductive init_task : Type :=
| AtEntry
| AwaitingLaunch (r : result Browser)
| Returned (r : result unit).

Definition init_step (eng : Engine) (t : init_task) (w : World) : init_task * World :=
  match t with
  | AtEntry =>
      match browser w with
      | Some _ => (Returned (Ok tt), w)
      | None =>
          let r := launch eng (trace w) in
          (AwaitingLaunch r, log (EvLaunch r) w)
      end
  | AwaitingLaunch (Ok h) =>
      (Returned (Ok tt), {| browser := Some h; trace := trace w |})
  | AwaitingLaunch (Throw e) => (Returned (Throw e), w)
  | Returned r => (Returned r, w)
  end.

(** The callers and the world they share. *)
Definition pool : Type := list init_task * World.

(** The event loop resumes caller [i]. *)
Definition step_at (eng : Engine) (i : nat) (st : pool) : pool :=
  match st.1 !! i with
  | Some t => let (t', w') := init_step eng t st.2 in (<[i := t']> st.1, w')
  | None => st
  end.

(** A schedule is the order in which the event loop resumes callers. *)
Definition run (eng : Engine) (sched : list nat) (st : pool) : pool :=
  foldl (fun st i => step_at eng i st) st sched.

Definition awaiting (t : init_task) : bool :=
  match t with AwaitingLaunch _ => true | _ => false end.

(** Caller [i] enters the function while a launch is in flight. *)
Definition overlaps (i : nat) (st : pool) : bool :=
  match st.1 !! i with
  | Some AtEntry => existsb awaiting st.1
  | _ => false
  end.

(** No step of the schedule makes a caller enter during a launch. *)
Fixpoint no_overlap (eng : Engine) (sched : list nat) (st : pool) : bool :=
  match sched with
  | [] => true
  | i :: rest => negb (overlaps i st) && no_overlap eng rest (step_at eng i st)
  end.

(** [n] calls made one after the other: each caller is resumed twice
    (entry, then the resolution of its launch) before the next one
    enters. *)
Definition in_turn (first n : nat) : list nat :=
  flat_map (fun i => [i; i]) (seq first n).

(** The engine processes started so far. *)
Definition engines (tr : list event) : list Browser :=
  omap (fun ev => match ev with EvLaunch (Ok b) => Some b | _ => None end) tr.

(** ** Engines and worlds to run the model on *)

(** The state of a process that has just started. *)
Definition boot : World := {| browser := None; trace := [] |}.

(** An engine on which every call succeeds: handles are numbered by the
    length of the transcript, the capture starts with the PDF signature. *)
Definition sound_engine : Engine :=
  {| launch := fun h => Ok (length h);
     newPage := fun h _ => Ok (length h);
     setContent := fun _ _ _ => Ok tt;
     pdf := fun _ _ _ => Ok (bytes_of "%PDF-1.4");
     pageClose := fun _ _ => Ok tt;
     browserClose := fun _ _ => Ok tt |}.

(** The same engine, except that loading the document fails (a
    navigation timeout). *)
Definition stalling_engine : Engine :=
  {| launch := launch sound_engine;
     newPage := newPage sound_engine;
     setContent := fun _ _ _ => Throw (new_Error "Navigation timeout of 30000 ms exceeded");
     pdf := pdf sound_engine;
     pageClose := pageClose sound_engine;
     browserClose := browserClose sound_engine |}.

(** The same engine, except that the capture fails. *)
Definition jammed_engine : Engine :=
  {| launch := launch sound_engine;
     newPage := newPage sound_engine;
     setContent := setContent sound_engine;
     pdf := fun _ _ _ => Throw (new_Error "Protocol error (Page.printToPDF): Printing failed");
     pageClose := pageClose sound_engine;
     browserClose := browserClose sound_engine |}.

Definition hello : value := VStr (js "<html><body><h1>Hello</h1></body></html>").

(** [{ htmlTemplate: hello }] *)
Definition hello_body : gmap jsstring value := <[js "htmlTemplate" := hello]> ∅.

(** * Properties *)

(** ** Reasoning about computations *)

Ltac unfold_M :=
  unfold mbind, mret, mthrow, M_bind, M_ret, M_throw, try_catch, call,
    get_browser, set_browser, console_error in *.

Lemma bind_Ok {A B} (m : M A) (k : A -> M B) w a w' :
  m w = (Ok a, w') -> (m ≫= k) w = k a w'.
Proof. unfold_M. intros ->. reflexivity. Qed.

Lemma bind_Throw {A B} (m : M A) (k : A -> M B) w e w' :
  m w = (Throw e, w') -> (m ≫= k) w = (Throw e, w').
Proof. unfold_M. intros ->. reflexivity. Qed.

Lemma try_catch_Ok {A} (m : M A) h w a w' :
  m w = (Ok a, w') -> try_catch m h w = (Ok a, w').
Proof. unfold try_catch. intros ->. reflexivity. Qed.

Lemma try_catch_Throw {A} (m : M A) h w e w' :
  m w = (Throw e, w') -> try_catch m h w = h e w'.
Proof. unfold try_catch. intros ->. reflexivity. Qed.

(** The guard [!htmlTemplate || typeof htmlTemplate !== 'string'] lets
    through exactly the non-empty strings. *)
Definition valid_html (v : value) : bool := truthy v && is_string v.

Lemma guard_valid v :
  negb (truthy v) || negb (is_string v) = negb (valid_html v).
Proof. unfold valid_html. destruct (truthy v), (is_string v); reflexivity. Qed.

Lemma valid_html_inv v :
  valid_html v = true -> exists c s, v = VStr (c :: s).
Proof.
  destruct v as [| | | |[|c s]| |]; try discriminate.
  - destruct b; discriminate.
  - unfold valid_html. rewrite andb_false_r. discriminate.
  - eauto.
Qed.

Lemma invalid_html_cases v :
  v = VStr [] \/ is_string v = false -> valid_html v = false.
Proof.
  unfold valid_html. intros [-> | ->]; [reflexivity | apply andb_false_r].
Qed.

(** ** Input validation *)

(** The error raised by "Step 1: Validate the input". *)
Definition invalid_input : thrown := new_Error "HTML Template Not Found or Invalid!".

Lemma generatePdfBuffer_invalid eng html options w :
  valid_html html = false ->
  generatePdfBuffer eng html options w
  = (Throw invalid_input,
     log (EvConsoleError
            (js "Error occurred during PDF generation from HTML template: ")
            invalid_input) w).
Proof.
  intros Hv. unfold generatePdfBuffer. rewrite guard_valid, Hv. reflexivity.
Qed.

(** C5. A request whose [htmlTemplate] is missing or is not a string is
    answered 400 with an [{error, message}] object by each of the three
    render routes, and the world is left as it was: no engine call, no
    render.  [generatePdfBuffer] called with an empty or non-string
    argument throws the invalid-input error, and the only thing it adds
    to the transcript is the line it logs: the engine is not touched. *)
Theorem invalid_html_rejected eng req html options w :
  is_string (field req "htmlTemplate") = false ->
  html = VStr [] \/ is_string html = false ->
  (post_Utility_GeneratePdf eng req w = (Ok invalid_request, w)
   /\ post_pdf_generate eng req w = (Ok invalid_request, w)
   /\ post_pdf_download eng req w = (Ok invalid_request, w))
  /\ (statusCode invalid_request = 400
      /\ body invalid_request
         = Json (error_object (js "Invalid request")
                   (js "htmlTemplate is required and must be a string")))
  /\ (generatePdfBuffer eng html options w).1 = Throw invalid_input
  /\ browser (generatePdfBuffer eng html options w).2 = browser w
  /\ trace (generatePdfBuffer eng html options w).2
     = trace w ++ [EvConsoleError
                     (js "Error occurred during PDF generation from HTML template: ")
                     invalid_input].
Proof.
  intros Hreq Hhtml.
  assert (Hg : negb (truthy (field req "htmlTemplate"))
               || negb (is_string (field req "htmlTemplate")) = true).
  { rewrite Hreq. apply orb_true_r. }
  split; [|split].
  - unfold post_Utility_GeneratePdf, post_pdf_generate, post_pdf_download.
    cbv zeta. rewrite Hg. repeat split.
  - split; reflexivity.
  - rewrite generatePdfBuffer_invalid by (apply invalid_html_cases; exact Hhtml).
    repeat split.
Qed.

Lemma invalid_html_rejected_witness :
  post_pdf_generate sound_engine ∅ boot = (Ok invalid_request, boot)
  /\ (generatePdfBuffer sound_engine (VStr []) None boot).1 = Throw invalid_input.
Proof.
  pose proof (invalid_html_rejected sound_engine ∅ (VStr []) None boot
                eq_refl (or_introl eq_refl)) as H.
  split; [apply H | apply H].
Defined.

(** ** Base64 output *)

Example base64_rfc4648 :
  base64 (bytes_of "") = js ""
  /\ base64 (bytes_of "f") = js "Zg=="
  /\ base64 (bytes_of "fo") = js "Zm8="
  /\ base64 (bytes_of "foo") = js "Zm9v"
  /\ base64 (bytes_of "foob") = js "Zm9vYg=="
  /\ base64 (bytes_of "fooba") = js "Zm9vYmE="
  /\ base64 (bytes_of "foobar") = js "Zm9vYmFy"
  /\ base64 (bytes_of "%PDF-") = js "JVBERi0=".
Proof. repeat split. Qed.

(** Every three bytes, complete or not, give four characters. *)
Lemma base64_length bs : length (base64 bs) = 4 * ((length bs + 2) / 3).
Proof.
  assert (forall n bs, length bs < n ->
                       length (base64 bs) = 4 * ((length bs + 2) / 3)) as Hn.
  { clear bs. induction n as [|n IH]; intros bs Hlt; [lia|].
    destruct bs as [|a [|b [|c rest]]]; [reflexivity..|].
    cbn [base64 length]. rewrite IH by (cbn [length] in Hlt; lia).
    replace (S (S (S (length rest))) + 2) with (length rest + 2 + 1 * 3) by lia.
    rewrite Nat.div_add by lia. lia. }
  apply (Hn (S (length bs))). lia.
Qed.

(** C7. Whenever [generatePdfBuffer] succeeds with a buffer,
    [generatePdf] on the same arguments succeeds with the Base64 text of
    that buffer (and leaves the same state); and [generatePdf] throws
    exactly when [generatePdfBuffer] throws, the same exception. *)
Theorem generatePdf_is_base64_of_buffer eng html options w :
  (forall b w', generatePdfBuffer eng html options w = (Ok b, w') ->
                generatePdf eng html options w = (Ok (base64 b), w'))
  /\ (forall e w', generatePdfBuffer eng html options w = (Throw e, w') <->
                   generatePdf eng html options w = (Throw e, w')).
Proof.
  unfold generatePdf. split.
  - intros b w' H. erewrite bind_Ok by exact H. reflexivity.
  - intros e w'. split.
    + intros H. erewrite bind_Throw by exact H. reflexivity.
    + unfold_M. destruct (generatePdfBuffer eng html options w) as [[b|e'] w''];
        [discriminate | intros [= -> ->]; reflexivity].
Qed.

Lemma generatePdf_is_base64_of_buffer_witness :
  (generatePdf sound_engine hello None boot).1 = Ok (js "JVBERi0xLjQ=").
Proof.
  pose proof (proj1 (generatePdf_is_base64_of_buffer sound_engine hello None boot)
                (bytes_of "%PDF-1.4") _ eq_refl) as H.
  rewrite H. reflexivity.
Defined.

(** ** Shutdown *)

(** C8. With no handle [closeBrowser] returns normally and changes
    nothing.  With a handle it asks the engine to terminate that process
    and, when the engine has done so, clears the handle.  Calling it
    twice in a row is the same as calling it once, in result and in
    state. *)
Theorem closeBrowser_idempotent eng tr :
  closeBrowser eng {| browser := None; trace := tr |}
  = (Ok tt, {| browser := None; trace := tr |})
  /\ (forall b,
       closeBrowser eng {| browser := Some b; trace := tr |}
       = match browserClose eng tr b with
         | Ok _ => (Ok tt, {| browser := None;
                              trace := tr ++ [EvBrowserClose b (Ok tt)] |})
         | Throw e => (Throw e, {| browser := Some b;
                                   trace := tr ++ [EvBrowserClose b (Throw e)] |})
         end)
  /\ (forall w, (closeBrowser eng ;; closeBrowser eng) w = closeBrowser eng w).
Proof.
  split; [reflexivity | split].
  - intros b. unfold closeBrowser. unfold_M. simpl.
    destruct (browserClose eng tr b) as [[]|e]; reflexivity.
  - intros [[b|] t]; [|reflexivity].
    unfold closeBrowser. unfold_M. simpl.
    destruct (browserClose eng t b) as [[]|e]; reflexivity.
Qed.

(** ** What one render does to the engine *)

Definition pages_opened (evs : list event) : list Page :=
  omap (fun ev => match ev with EvNewPage _ (Ok p) => Some p | _ => None end) evs.

Definition pages_closed (evs : list event) : list Page :=
  omap (fun ev => match ev with EvPageClose p _ => Some p | _ => None end) evs.

Definition print_parameters (evs : list event) : list PDFOptions.t :=
  omap (fun ev => match ev with EvPdf _ o _ => Some o | _ => None end) evs.

(** The parameter object and the string literals are kept folded while
    a call is unfolded. *)
#[global] Arguments pdfOptions : simpl never.
#[global] Arguments js : simpl never.
#[global] Arguments new_Error : simpl never.

(** Unfolds one call of [generatePdfBuffer] on a known state and splits
    on every answer of the engine. *)
Ltac run_render :=
  unfold generatePdfBuffer, initializeBrowser; unfold_M; cbn;
  repeat (case_match; simplify_eq/=).

(** The transcript only grows, by the events of this call. *)
Lemma generatePdfBuffer_extends eng html options w :
  exists evs, trace (generatePdfBuffer eng html options w).2 = trace w ++ evs.
Proof.
  destruct w as [b t].
  run_render; rewrite <- ?app_assoc; eexists; reflexivity.
Qed.

(** The events of a call: what it appended to the transcript. *)
Definition events_of {A} (m : M A) (w : World) : list event :=
  drop (length (trace w)) (trace (m w).2).

Lemma generatePdfBuffer_events eng html options w :
  trace (generatePdfBuffer eng html options w).2
  = trace w ++ events_of (generatePdfBuffer eng html options) w.
Proof.
  unfold events_of.
  destruct (generatePdfBuffer_extends eng html options w) as [evs ->].
  rewrite drop_app_length. reflexivity.
Qed.

Ltac run_events :=
  unfold events_of, generatePdfBuffer, initializeBrowser; unfold_M; cbn;
  repeat (case_match; simplify_eq/=);
  rewrite <- ?app_assoc, ?drop_app_length; cbn.

(** Whatever reaches [page.pdf] is the object built in Step 3. *)
Lemma generatePdfBuffer_print_parameters eng html options w :
  let evs := events_of (generatePdfBuffer eng html options) w in
  print_parameters evs = [] \/ print_parameters evs = [pdfOptions options].
Proof.
  destruct w as [b t]. cbv zeta.
  run_events; auto.
Qed.

(** On the success path the page that was opened is closed. *)
Lemma generatePdfBuffer_closes_on_success eng html options w buf w' :
  generatePdfBuffer eng html options w = (Ok buf, w') ->
  exists p,
    pages_opened (events_of (generatePdfBuffer eng html options) w) = [p]
    /\ pages_closed (events_of (generatePdfBuffer eng html options) w) = [p]
    /\ print_parameters (events_of (generatePdfBuffer eng html options) w)
       = [pdfOptions options].
Proof.
  destruct w as [b t]. revert buf w'.
  run_events; intros; simplify_eq; eauto.
Qed.

(** On the paths where content loading or the capture throws, the page
    that was opened is not closed: there is no [finally]. *)
Lemma generatePdfBuffer_keeps_page_on_failure eng html options w e w' :
  generatePdfBuffer eng html options w = (Throw e, w') ->
  (forall p, In (EvPageClose p (Ok tt))
               (events_of (generatePdfBuffer eng html options) w) -> False).
Proof.
  destruct w as [b t]. revert e w'.
  run_events; intros; simplify_eq; repeat (destruct_or?; simplify_eq); tauto.
Qed.

(** ** Page teardown *)

(** C2. Evaluation on the failure paths.  When loading the document
    throws, and when the capture throws, [generatePdfBuffer] rethrows
    with the page it opened (page 1 of browser 0) still open: the
    transcript of the call holds no [page.close()].  The success path
    on the same input does close it. *)
Theorem generatePdfBuffer_leaks_page_on_failure :
  generatePdfBuffer stalling_engine hello None boot
  = (Throw (new_Error "Navigation timeout of 30000 ms exceeded"),
     {| browser := Some 0;
        trace := [EvLaunch (Ok 0); EvNewPage 0 (Ok 1);
                  EvSetContent 1 hello
                    (Throw (new_Error "Navigation timeout of 30000 ms exceeded"));
                  EvConsoleError
                    (js "Error occurred during PDF generation from HTML template: ")
                    (new_Error "Navigation timeout of 30000 ms exceeded")] |})
  /\ pages_opened (events_of (generatePdfBuffer stalling_engine hello None) boot) = [1]
  /\ pages_closed (events_of (generatePdfBuffer stalling_engine hello None) boot) = []
  /\ (generatePdfBuffer jammed_engine hello None boot).1
     = Throw (new_Error "Protocol error (Page.printToPDF): Printing failed")
  /\ pages_opened (events_of (generatePdfBuffer jammed_engine hello None) boot) = [1]
  /\ pages_closed (events_of (generatePdfBuffer jammed_engine hello None) boot) = []
  /\ pages_opened (events_of (generatePdfBuffer sound_engine hello None) boot) = [1]
  /\ pages_closed (events_of (generatePdfBuffer sound_engine hello None) boot) = [1].
Proof. repeat split. Qed.

(** ** Print parameters *)

(** The sides of a margin object. *)
Definition sides (m : value) : list value :=
  [get m "top"; get m "bottom"; get m "left"; get m "right"].

(** When an option is absent (or falsy) its default is used: format
    [A4], the four-sided [20px] margin, background printing on. *)
Lemma pdfOptions_defaults options :
  let opt (f : GeneratePdfOptions -> value) := from_option f VUndefined options in
  (truthy (opt paperSize) = false ->
   PDFOptions.format (pdfOptions options) = VStr (js "A4"))
  /\ (truthy (opt margin) = false ->
      sides (PDFOptions.margin (pdfOptions options))
      = [VStr (js "20px"); VStr (js "20px"); VStr (js "20px"); VStr (js "20px")])
  /\ (opt printBackground = VUndefined ->
      PDFOptions.printBackground (pdfOptions options) = true).
Proof.
  cbv zeta. unfold pdfOptions, js_or. repeat split.
  - intros ->. reflexivity.
  - intros ->. reflexivity.
  - intros ->. reflexivity.
Qed.

(** [{ margin: { top: '10px' } }] *)
Definition top_only : GeneratePdfOptions :=
  {| paperSize := VUndefined;
     margin := VObj (<[js "top" := VStr (js "10px")]> ∅);
     printBackground := VUndefined |}.

(** C3. Evaluation on a partial margin.  With the options
    [{ margin: { top: '10px' } }] the margin handed to [page.pdf] is
    that very object: its [bottom], [left] and [right] are [undefined],
    not ['20px'].  The other two defaults (format [A4], background on)
    are applied. *)
Theorem partial_margin_sides_not_defaulted :
  print_parameters (events_of (generatePdfBuffer sound_engine hello (Some top_only)) boot)
  = [pdfOptions (Some top_only)]
  /\ PDFOptions.margin (pdfOptions (Some top_only)) = margin top_only
  /\ sides (PDFOptions.margin (pdfOptions (Some top_only)))
     = [VStr (js "10px"); VUndefined; VUndefined; VUndefined]
  /\ PDFOptions.format (pdfOptions (Some top_only)) = VStr (js "A4")
  /\ PDFOptions.printBackground (pdfOptions (Some top_only)) = true.
Proof. repeat split. Qed.

(** Once the document is loaded, [page.pdf] is called on that page with
    the object of Step 3. *)
Lemma generatePdfBuffer_pdf_follows_content eng html options w p :
  In (EvSetContent p html (Ok tt)) (events_of (generatePdfBuffer eng html options) w) ->
  exists r,
    In (EvPdf p (pdfOptions options) r) (events_of (generatePdfBuffer eng html options) w).
Proof.
  destruct w as [b t].
  run_events; intros; repeat (destruct_or?; simplify_eq); try tauto;
    eexists; cbn; eauto 10.
Qed.

(** The buffer a render returns is one [page.pdf] returned, called with
    the object of Step 3. *)
Lemma generatePdfBuffer_buffer_from_pdf eng html options w buf w' :
  generatePdfBuffer eng html options w = (Ok buf, w') ->
  exists p,
    In (EvPdf p (pdfOptions options) (Ok buf))
       (events_of (generatePdfBuffer eng html options) w).
Proof.
  destruct w as [b t]. revert buf w'.
  run_events; intros; simplify_eq; eexists; cbn; eauto 10.
Qed.

(** C10. Background printing is on for every [printBackground] other
    than the boolean [false].  Whenever the value is not [false]: every
    print-parameter object this call hands to the engine has
    [printBackground: true]; once the document is loaded, [page.pdf] is
    called on that page, with [printBackground: true]; and a buffer
    returned by the call comes from a [page.pdf] that was called with
    [printBackground: true].  That covers [undefined] and the falsy
    non-booleans [0], [null] and the empty string. *)
Theorem printBackground_on_unless_false eng html options w :
  from_option printBackground VUndefined options <> VBool false ->
  Forall (fun o => PDFOptions.printBackground o = true)
         (print_parameters (events_of (generatePdfBuffer eng html options) w))
  /\ (forall p,
        In (EvSetContent p html (Ok tt))
           (events_of (generatePdfBuffer eng html options) w) ->
        exists o r,
          In (EvPdf p o r) (events_of (generatePdfBuffer eng html options) w)
          /\ PDFOptions.printBackground o = true)
  /\ (forall buf w',
        generatePdfBuffer eng html options w = (Ok buf, w') ->
        exists p o,
          In (EvPdf p o (Ok buf)) (events_of (generatePdfBuffer eng html options) w)
          /\ PDFOptions.printBackground o = true).
Proof.
  intros Hpb.
  assert (PDFOptions.printBackground (pdfOptions options) = true) as Hon.
  { unfold pdfOptions. cbn.
    destruct (from_option printBackground VUndefined options) as [| |[|]| | | |];
      try reflexivity. contradiction. }
  split; [|split].
  - destruct (generatePdfBuffer_print_parameters eng html options w) as [-> | ->].
    + constructor.
    + repeat constructor. exact Hon.
  - intros p Hin.
    destruct (generatePdfBuffer_pdf_follows_content eng html options w p Hin) as [r Hr].
    exists (pdfOptions options), r. split; [exact Hr | exact Hon].
  - intros buf w' Hok.
    destruct (generatePdfBuffer_buffer_from_pdf eng html options w buf w' Hok) as [p Hp].
    exists p, (pdfOptions options). split; [exact Hp | exact Hon].
Qed.

(** [{ printBackground: v }] *)
Definition background (v : value) : GeneratePdfOptions :=
  {| paperSize := VUndefined; margin := VUndefined; printBackground := v |}.

(** With [printBackground] set to [0], to [null] and to the empty
    string, the render on an engine that works returns the capture of a
    [page.pdf] called with [printBackground: true]. *)
Lemma printBackground_on_unless_false_witness :
  (exists p o,
      In (EvPdf p o (Ok (bytes_of "%PDF-1.4")))
         (events_of (generatePdfBuffer sound_engine hello
                       (Some (background (VNum (S754_zero false))))) boot)
      /\ PDFOptions.printBackground o = true)
  /\ (exists p o,
        In (EvPdf p o (Ok (bytes_of "%PDF-1.4")))
           (events_of (generatePdfBuffer sound_engine hello
                         (Some (background VNull))) boot)
        /\ PDFOptions.printBackground o = true)
  /\ (exists p o,
        In (EvPdf p o (Ok (bytes_of "%PDF-1.4")))
           (events_of (generatePdfBuffer sound_engine hello
                         (Some (background (VStr [])))) boot)
        /\ PDFOptions.printBackground o = true).
Proof.
  split; [|split].
  - assert (VNum (S754_zero false) <> VBool false) as Hne by discriminate.
    apply (proj2 (proj2 (printBackground_on_unless_false sound_engine hello
                           (Some (background (VNum (S754_zero false)))) boot Hne))
             (bytes_of "%PDF-1.4")
             (generatePdfBuffer sound_engine hello
                (Some (background (VNum (S754_zero false)))) boot).2).
    reflexivity.
  - assert (VNull <> VBool false) as Hne by discriminate.
    apply (proj2 (proj2 (printBackground_on_unless_false sound_engine hello
                           (Some (background VNull)) boot Hne))
             (bytes_of "%PDF-1.4")
             (generatePdfBuffer sound_engine hello (Some (background VNull)) boot).2).
    reflexivity.
  - assert (VStr [] <> VBool false) as Hne by discriminate.
    apply (proj2 (proj2 (printBackground_on_unless_false sound_engine hello
                           (Some (background (VStr []))) boot Hne))
             (bytes_of "%PDF-1.4")
             (generatePdfBuffer sound_engine hello (Some (background (VStr []))) boot).2).
    reflexivity.
Defined.

(** The three calls of the witness do reach [page.pdf], and [false]
    itself switches background printing off. *)
Example printBackground_examples :
  map PDFOptions.printBackground
    (print_parameters
       (events_of (generatePdfBuffer sound_engine hello
                     (Some (background (VNum (S754_zero false))))) boot)) = [true]
  /\ PDFOptions.printBackground (pdfOptions (Some (background VNull))) = true
  /\ PDFOptions.printBackground (pdfOptions (Some (background (VStr [])))) = true
  /\ PDFOptions.printBackground (pdfOptions None) = true
  /\ PDFOptions.printBackground (pdfOptions (Some (background (VBool false)))) = false.
Proof. repeat split. Qed.

(** ** The routes, given what the render did *)

(** The 500 answer built by the [catch] block. *)
Definition failure_response (error : thrown) : Response :=
  json (error_object (js "PDF generation failed") (message_of error)) (status 500 res).

(** The 200 answer of the download route. *)
Definition attachment (name : jsstring) (pdfBuffer : list byte) : Response :=
  send (Binary pdfBuffer)
    (setHeader "Content-Length" (HNumber (length pdfBuffer))
    (setHeader "Content-Disposition" (HText (content_disposition name))
    (setHeader "Content-Type" (HText (js "application/pdf")) res))).

Definition logged_failure (e : thrown) (w : World) : World :=
  log (EvConsoleError (js "Error generating PDF:") e) w.

Lemma generation_failed_eq e w :
  generation_failed e w = (Ok (failure_response e), logged_failure e w).
Proof. reflexivity. Qed.

Section RouteEquations.
Variable eng : Engine.
Variable req : gmap jsstring value.
Variable w : World.
Hypothesis Hvalid : valid_html (field req "htmlTemplate") = true.

Let html := field req "htmlTemplate".
Let options := Some (build_options req).

Lemma post_Utility_GeneratePdf_eq :
  post_Utility_GeneratePdf eng req w
  = match generatePdf eng html None w with
    | (Ok pdfBase64, w') =>
        (Ok (send (Text pdfBase64)
               (setHeader "Content-Type" (HText (js "text/plain")) res)), w')
    | (Throw e, w') => (Ok (failure_response e), logged_failure e w')
    end.
Proof using Hvalid.
  unfold post_Utility_GeneratePdf. cbv zeta.
  rewrite guard_valid, Hvalid. cbn [negb]. unfold_M.
  destruct (generatePdf eng _ None w) as [[s|e] w']; reflexivity.
Qed.

Lemma post_pdf_generate_eq :
  post_pdf_generate eng req w
  = match generatePdf eng html options w with
    | (Ok pdfBase64, w') =>
        (Ok (json (VObj (<[js "success" := VBool true]>
                        (<[js "pdf" := VStr pdfBase64]>
                        (<[js "message" := VStr (js "PDF generated successfully")]> ∅))))
               (status 200 res)), w')
    | (Throw e, w') => (Ok (failure_response e), logged_failure e w')
    end.
Proof using Hvalid.
  unfold post_pdf_generate. cbv zeta.
  rewrite guard_valid, Hvalid. cbn [negb]. unfold_M.
  destruct (generatePdf eng _ _ w) as [[s|e] w']; reflexivity.
Qed.

Lemma post_pdf_download_eq :
  post_pdf_download eng req w
  = match generatePdfBuffer eng html options w with
    | (Ok pdfBuffer, w') =>
        match replace_unsafe (js_or (field req "fileName") (VStr (js "document"))) with
        | Ok name => (Ok (attachment name pdfBuffer), w')
        | Throw e => (Ok (failure_response e), logged_failure e w')
        end
    | (Throw e, w') => (Ok (failure_response e), logged_failure e w')
    end.
Proof using Hvalid.
  unfold post_pdf_download. cbv zeta.
  rewrite guard_valid, Hvalid. cbn [negb]. unfold_M.
  destruct (generatePdfBuffer eng _ _ w) as [[b|e] w']; [|reflexivity].
  destruct (replace_unsafe _) as [name|e]; reflexivity.
Qed.
End RouteEquations.

(** ** The download file name *)

(** The replacement made by the route: code units outside the class
    become underscores. *)
Definition mask (s : jsstring) : jsstring :=
  map (fun c => if safe_char c then c else underscore) s.

(** Following the words of the specification: the characters outside the
    class are stripped. *)
Definition strip (s : jsstring) : jsstring := filter (fun c => safe_char c = true) s.

Definition slash : N := 47%N.
Definition backslash : N := 92%N.

Lemma mask_safe s : Forall (fun c => safe_char c = true) (mask s).
Proof.
  unfold mask. apply Forall_map, Forall_forall. intros c _. cbn.
  destruct (safe_char c) eqn:E; [exact E | reflexivity].
Qed.

Lemma safe_no_separator s :
  Forall (fun c => safe_char c = true) s -> ~ In slash s /\ ~ In backslash s.
Proof.
  rewrite Forall_forall. intros H.
  split; intros Hin; apply list_elem_of_In, H in Hin; discriminate Hin.
Qed.

Lemma mask_document : mask (js "document") = js "document".
Proof. reflexivity. Qed.

(** [{ htmlTemplate: hello, fileName: v }] *)
Definition named (v : value) : gmap jsstring value := <[js "fileName" := v]> hello_body.

Definition traversal : jsstring := js "../../etc/passwd".

(** C4, as stated, fails: for [fileName = '../../etc/passwd'] the name
    in the header is ['______etc_passwd'], the same length as the input,
    and not the stripped ['etcpasswd']. *)
Lemma traversal_name_is_not_stripped :
  (post_pdf_download sound_engine (named (VStr traversal)) boot).1
  = Ok (attachment (js "______etc_passwd") (bytes_of "%PDF-1.4"))
  /\ headers (attachment (js "______etc_passwd") (bytes_of "%PDF-1.4"))
     !! js "Content-Disposition"
     = Some (HText (content_disposition (js "______etc_passwd")))
  /\ strip traversal = js "etcpasswd"
  /\ js "______etc_passwd" <> strip traversal.
Proof. repeat split. discriminate. Qed.

(** C4, amended.  For a string [fileName] and a render that succeeds,
    the download route answers 200 with
    [Content-Disposition: attachment; filename="<name>.pdf"], where
    [name] is [fileName] with every code unit outside [[A-Za-z0-9-_]]
    replaced by an underscore, and is ["document"] when [fileName] is
    absent or empty.  [name] has the length of what it was made from,
    holds only characters of the class, and so no path separator. *)
Theorem download_filename_is_masked eng req w s :
  valid_html (field req "htmlTemplate") = true ->
  field req "fileName" = VStr s \/ (field req "fileName" = VUndefined /\ s = []) ->
  is_ok (generatePdfBuffer eng (field req "htmlTemplate")
           (Some (build_options req)) w).1 = true ->
  let source := match s with [] => js "document" | _ => s end in
  let name := mask source in
  exists resp,
    (post_pdf_download eng req w).1 = Ok resp
    /\ statusCode resp = 200
    /\ headers resp !! js "Content-Disposition"
       = Some (HText (content_disposition name))
    /\ length name = length source
    /\ (s = [] -> name = js "document")
    /\ Forall (fun c => safe_char c = true) name
    /\ ~ In slash name /\ ~ In backslash name.
Proof.
  intros Hvalid Hname Hok source name.
  rewrite post_pdf_download_eq by exact Hvalid.
  destruct (generatePdfBuffer eng _ _ w) as [[buf|e] w']; [clear Hok | discriminate].
  assert (replace_unsafe (js_or (field req "fileName") (VStr (js "document")))
          = Ok name) as ->.
  { subst name source. destruct Hname as [-> | [-> ->]]; [|reflexivity].
    destruct s; reflexivity. }
  exists (attachment name buf). cbn [fst].
  split; [reflexivity|]. split; [reflexivity|]. split; [reflexivity|].
  split; [apply length_map|].
  split; [intros ->; reflexivity|].
  split; [apply mask_safe|].
  apply safe_no_separator, mask_safe.
Qed.

Lemma download_filename_is_masked_witness :
  exists resp,
    (post_pdf_download sound_engine (named (VStr traversal)) boot).1 = Ok resp
    /\ statusCode resp = 200
    /\ headers resp !! js "Content-Disposition"
       = Some (HText (content_disposition (mask traversal)))
    /\ length (mask traversal) = length traversal
    /\ (traversal = [] -> mask traversal = js "document")
    /\ Forall (fun c => safe_char c = true) (mask traversal)
    /\ ~ In slash (mask traversal) /\ ~ In backslash (mask traversal).
Proof.
  apply (download_filename_is_masked sound_engine (named (VStr traversal)) boot traversal).
  - reflexivity.
  - left. reflexivity.
  - reflexivity.
Defined.

(** ** Errors to status codes *)

Inductive route : Type := Legacy | Generate | Download.

Definition handler (eng : Engine) (rt : route) : gmap jsstring value -> M Response :=
  match rt with
  | Legacy => post_Utility_GeneratePdf eng
  | Generate => post_pdf_generate eng
  | Download => post_pdf_download eng
  end.

(** The rendering call each route makes, its value dropped. *)
Definition rendering (eng : Engine) (rt : route) (req : gmap jsstring value) : M unit :=
  let html := field req "htmlTemplate" in
  match rt with
  | Legacy => generatePdf eng html None ;; mret tt
  | Generate => generatePdf eng html (Some (build_options req)) ;; mret tt
  | Download => generatePdfBuffer eng html (Some (build_options req)) ;; mret tt
  end.

(** The double 5. *)
Definition five : spec_float := S754_finite false 5629499534213120 (-50).

Example five_is_a_double : valid_binary 53 1024 five = true.
Proof. reflexivity. Qed.

(** C6, as stated, fails in its last part: the download route, given
    [fileName: 5], answers 500 although the render succeeded. *)
Lemma download_500_after_successful_render :
  (rendering sound_engine Download (named (VNum five)) boot).1 = Ok tt
  /\ (handler sound_engine Download (named (VNum five)) boot).1
     = Ok (failure_response replace_is_not_a_function)
  /\ statusCode (failure_response replace_is_not_a_function) = 500.
Proof. repeat split. Qed.

(** C6, amended.  On each of the three routes, when the rendering call
    throws, the answer is 500 with the object
    [{error: 'PDF generation failed', message}], where [message] is the
    thrown [Error]'s message, and ['Unknown error occurred'] when what
    was thrown is not an [Error].  When the render succeeds, the legacy
    and JSON routes answer 200; the download route answers 200 unless
    [fileName] is a truthy value that is not a string. *)
Theorem render_failure_is_500 eng rt req w :
  valid_html (field req "htmlTemplate") = true ->
  match rendering eng rt req w with
  | (Throw e, w') =>
      handler eng rt req w = (Ok (failure_response e), logged_failure e w')
      /\ statusCode (failure_response e) = 500
      /\ body (failure_response e)
         = Json (error_object (js "PDF generation failed")
                   match e with
                   | ErrorObject m => m
                   | NotAnError _ => js "Unknown error occurred"
                   end)
  | (Ok _, w') =>
      exists resp w'',
        handler eng rt req w = (Ok resp, w'')
        /\ (statusCode resp = 200
            \/ statusCode resp = 500 /\ rt = Download
               /\ truthy (field req "fileName") = true
               /\ is_string (field req "fileName") = false)
  end.
Proof.
  intros Hvalid. destruct rt; cbn [rendering handler].
  - rewrite post_Utility_GeneratePdf_eq by exact Hvalid. unfold_M.
    destruct (generatePdf eng _ None w) as [[s|e] w'].
    + eexists _, _. split; [reflexivity | left; reflexivity].
    + destruct e; repeat split.
  - rewrite post_pdf_generate_eq by exact Hvalid. unfold_M.
    destruct (generatePdf eng _ _ w) as [[s|e] w'].
    + eexists _, _. split; [reflexivity | left; reflexivity].
    + destruct e; repeat split.
  - rewrite post_pdf_download_eq by exact Hvalid. unfold_M.
    destruct (generatePdfBuffer eng _ _ w) as [[buf|e] w'].
    + unfold js_or. destruct (truthy (field req "fileName")) eqn:Htruthy.
      * destruct (field req "fileName") as [| | | |s| |] eqn:Hname;
          try (eexists _, _; split; [reflexivity|]; right; repeat split; fail).
        eexists _, _. split; [reflexivity | left; reflexivity].
      * eexists _, _. split; [reflexivity | left; reflexivity].
    + destruct e; repeat split.
Qed.

Lemma render_failure_is_500_witness :
  post_Utility_GeneratePdf stalling_engine hello_body boot
  = (Ok (failure_response (new_Error "Navigation timeout of 30000 ms exceeded")),
     logged_failure (new_Error "Navigation timeout of 30000 ms exceeded")
       (generatePdfBuffer stalling_engine hello None boot).2)
  /\ statusCode (failure_response (new_Error "Navigation timeout of 30000 ms exceeded")) = 500.
Proof.
  pose proof (render_failure_is_500 stalling_engine Legacy hello_body boot eq_refl) as H.
  split; apply H.
Defined.

(** ** A [fileName] that is not a string *)

(** C9, as stated, fails: [0] is a [fileName] that is present and not a
    string, yet it is defaulted and the answer is the attachment
    [document.pdf] with status 200; the same holds for [null] and
    [false]. *)
Lemma falsy_fileName_is_defaulted :
  (post_pdf_download sound_engine (named (VNum (S754_zero false))) boot).1
  = Ok (attachment (js "document") (bytes_of "%PDF-1.4"))
  /\ statusCode (attachment (js "document") (bytes_of "%PDF-1.4")) = 200
  /\ (post_pdf_download sound_engine (named VNull) boot).1
     = Ok (attachment (js "document") (bytes_of "%PDF-1.4"))
  /\ (post_pdf_download sound_engine (named (VBool false)) boot).1
     = Ok (attachment (js "document") (bytes_of "%PDF-1.4")).
Proof. repeat split. Qed.

(** C9, amended.  With a valid [htmlTemplate], a render that succeeds
    and a [fileName] that is not a string: if [fileName] is truthy (a
    non-zero number, [true], an array, an object) the sanitization step
    throws and the answer is 500 with [{error, message}], the message
    being that of the [TypeError]; if it is falsy ([0], [null],
    [false]) it is replaced by ["document"] and the answer is the
    attachment.  The state is the one the render left, plus the logged
    error in the first case. *)
Theorem non_string_fileName eng req w buf w' :
  valid_html (field req "htmlTemplate") = true ->
  is_string (field req "fileName") = false ->
  generatePdfBuffer eng (field req "htmlTemplate") (Some (build_options req)) w
  = (Ok buf, w') ->
  post_pdf_download eng req w
  = if truthy (field req "fileName")
    then (Ok (failure_response replace_is_not_a_function),
          logged_failure replace_is_not_a_function w')
    else (Ok (attachment (js "document") buf), w').
Proof.
  intros Hvalid Hname Hrender.
  rewrite post_pdf_download_eq, Hrender by exact Hvalid.
  unfold js_or. destruct (truthy (field req "fileName")); [|reflexivity].
  destruct (field req "fileName"); try reflexivity. discriminate Hname.
Qed.

Lemma non_string_fileName_witness :
  post_pdf_download sound_engine (named (VNum five)) boot
  = (Ok (failure_response replace_is_not_a_function),
     logged_failure replace_is_not_a_function
       (generatePdfBuffer sound_engine hello
          (Some (build_options (named (VNum five)))) boot).2)
  /\ statusCode (failure_response replace_is_not_a_function) = 500
  /\ body (failure_response replace_is_not_a_function)
     = Json (error_object (js "PDF generation failed")
               (js "(fileName || " ++ [dquote] ++ js "document" ++ [dquote]
                ++ js ").replace is not a function")).
Proof.
  split; [|split; reflexivity].
  apply (non_string_fileName sound_engine (named (VNum five)) boot (bytes_of "%PDF-1.4"));
    reflexivity.
Defined.

(** ** Initialization under interleaving *)

(** A caller that is never interrupted is [initializeBrowser]: its two
    steps, taken back to back, do what the sequential function does. *)
Lemma init_step_twice eng w :
  let (t1, w1) := init_step eng AtEntry w in
  init_step eng t1 w1
  = (Returned (initializeBrowser eng w).1, (initializeBrowser eng w).2).
Proof.
  destruct w as [[b|] t]; [reflexivity|].
  unfold initializeBrowser. unfold_M. cbn.
  destruct (launch eng t) as [h|e]; reflexivity.
Qed.


(** Counting the callers of a pool by a weight. *)
Definition weigh (f : init_task -> nat) (pl : list init_task) : nat :=
  sum_list (f <$> pl).



Lemma weigh_insert f pl i t :
  pl !! i = Some t ->
  forall t', weigh f (<[i := t']> pl) + f t = weigh f pl + f t'.
Proof.
  unfold weigh. revert i.
  induction pl as [|a pl IH]; intros [|i] H t'; simplify_eq/=.
  - lia.
  - specialize (IH i H t'). lia.
Qed.





Lemma engines_snoc tr ev :
  engines (tr ++ [ev])
  = engines tr ++ match ev with EvLaunch (Ok b) => [b] | _ => [] end.
Proof.
  unfold engines. rewrite omap_app. f_equal.
  destruct ev as [[b|e]| | | | | |]; reflexivity.
Qed.

Section SingleFlight.
Variable eng : Engine.
(** The number of engines started before the callers arrive. *)
Variable before : nat.




End SingleFlight.





(** A process whose handle is already stored. *)
Definition warm : World := {| browser := Some 0; trace := [EvLaunch (Ok 0)] |}.


(** The calls of the witness do start an engine, and exactly one. *)
Example three_calls_in_turn :
  in_turn 0 3 = [0; 0; 1; 1; 2; 2]
  /\ trace (run sound_engine (in_turn 0 3) (replicate 3 AtEntry, boot)).2
     = [EvLaunch (Ok 0)]
  /\ trace (run sound_engine [0; 0; 1; 2; 1; 2] ([AtEntry; AtEntry; AtEntry], boot)).2
     = [EvLaunch (Ok 0)]
  /\ no_overlap sound_engine [0; 1; 0; 1] ([AtEntry; AtEntry], boot) = false.
Proof. repeat split. Qed.

(** * Further properties of the renderer wrapper *)

(** ** One render, step by step *)

(** The launches attempted, with how each settled. *)
Definition launches (evs : list event) : list (result Browser) :=
  omap (fun ev => match ev with EvLaunch r => Some r | _ => None end) evs.

(** The errors written with [console.error]. *)
Definition console_lines (evs : list event) : list thrown :=
  omap (fun ev => match ev with EvConsoleError _ e => Some e | _ => None end) evs.

(** The browsers asked to terminate. *)
Definition browsers_closed (evs : list event) : list Browser :=
  omap (fun ev => match ev with EvBrowserClose b _ => Some b | _ => None end) evs.

(** An engine on which everything succeeds except closing a page. *)
Definition sticky_engine : Engine :=
  {| launch := launch sound_engine;
     newPage := newPage sound_engine;
     setContent := setContent sound_engine;
     pdf := pdf sound_engine;
     pageClose := fun _ _ => Throw (new_Error "Protocol error: Target closed");
     browserClose := browserClose sound_engine |}.

(** An engine that cannot be started. *)
Definition absent_engine : Engine :=
  {| launch := fun _ => Throw (new_Error "Failed to launch the browser process!");
     newPage := newPage sound_engine;
     setContent := setContent sound_engine;
     pdf := pdf sound_engine;
     pageClose := pageClose sound_engine;
     browserClose := browserClose sound_engine |}.

(** X1. A successful [generatePdfBuffer] has made exactly these engine
    calls, in this order: a launch if and only if there was no handle,
    then [newPage] on the handle, [setContent] with the template
    unchanged, [pdf] with the parameters of Step 3, and [close] on the
    same page; each returned normally, the buffer is the one [pdf]
    returned, and the handle is stored. *)
Theorem generatePdfBuffer_success_transcript eng html options w buf w' :
  generatePdfBuffer eng html options w = (Ok buf, w') ->
  valid_html html = true
  /\ exists b p,
      browser w' = Some b
      /\ (forall b0, browser w = Some b0 -> b0 = b)
      /\ events_of (generatePdfBuffer eng html options) w
         = match browser w with Some _ => [] | None => [EvLaunch (Ok b)] end
           ++ [EvNewPage b (Ok p); EvSetContent p html (Ok tt);
               EvPdf p (pdfOptions options) (Ok buf); EvPageClose p (Ok tt)].
Proof.
  destruct w as [b0 t]. revert buf w'.
  unfold valid_html.
  run_events; intros; simplify_eq;
    repeat match goal with u : unit |- _ => destruct u end;
    (split; [destruct (truthy html), (is_string html); done |]);
    eexists _, _; (split; [reflexivity|]);
    (split; [intros ? [= <-]; reflexivity | reflexivity]).
Qed.

Lemma generatePdfBuffer_success_transcript_witness :
  valid_html hello = true
  /\ exists b p,
      browser (generatePdfBuffer sound_engine hello None boot).2 = Some b
      /\ (forall b0, browser boot = Some b0 -> b0 = b)
      /\ events_of (generatePdfBuffer sound_engine hello None) boot
         = match browser boot with Some _ => [] | None => [EvLaunch (Ok b)] end
           ++ [EvNewPage b (Ok p); EvSetContent p hello (Ok tt);
               EvPdf p (pdfOptions None) (Ok (bytes_of "%PDF-1.4"));
               EvPageClose p (Ok tt)].
Proof.
  apply (generatePdfBuffer_success_transcript sound_engine hello None boot
           (bytes_of "%PDF-1.4") (generatePdfBuffer sound_engine hello None boot).2).
  reflexivity.
Defined.

(** The errors of the engine calls that threw. *)
Definition failures (evs : list event) : list thrown :=
  omap (fun ev =>
          match ev with
          | EvLaunch (Throw e) | EvNewPage _ (Throw e) | EvSetContent _ _ (Throw e)
          | EvPdf _ _ (Throw e) | EvPageClose _ (Throw e) | EvBrowserClose _ (Throw e) =>
              Some e
          | _ => None
          end) evs.

(** X2. What [generatePdfBuffer] throws, and that it logs it.  A
    template that is not a non-empty string makes it throw the
    invalid-input error without any engine call.  Otherwise it throws
    exactly when an engine call throws, and throws that error: it stops
    at the first engine call that fails, and it returns a buffer when
    none fails; the error "Failed to initialize browser" of line 47 is
    never raised.  In every case a call that throws has written one line
    with [console.error], carrying that exception, as its last act, and
    a call that returns has written none. *)
Theorem generatePdfBuffer_logs_what_it_throws eng html options w :
  let evs := events_of (generatePdfBuffer eng html options) w in
  let r := (generatePdfBuffer eng html options w).1 in
  (if valid_html html
   then match failures evs with
        | [] => is_ok r = true
        | e :: more => r = Throw e /\ more = []
        end
   else r = Throw invalid_input /\ failures evs = [] /\ launches evs = []
        /\ pages_opened evs = [])
  /\ match r with
     | Throw e =>
         console_lines evs = [e]
         /\ last evs
            = Some (EvConsoleError
                      (js "Error occurred during PDF generation from HTML template: ") e)
     | Ok _ => console_lines evs = []
     end.
Proof.
  destruct w as [b t]. cbv zeta.
  unfold events_of, generatePdfBuffer. rewrite guard_valid.
  destruct (valid_html html); cbn [negb];
    unfold initializeBrowser; unfold_M; cbn;
    repeat (case_match; simplify_eq/=);
    rewrite <- ?app_assoc, ?drop_app_length in *; cbn in *; simplify_eq; auto.
Qed.

(** X3. The launch policy of one render.  The engine is launched only
    when the template is a non-empty string and no handle is stored, and
    then exactly once: a failed launch is not retried within the call.
    Afterwards the handle is the one that was stored, else the one just
    launched, else still absent.  No render ever asks a browser to
    terminate. *)
Theorem generatePdfBuffer_launch_policy eng html options w :
  let evs := events_of (generatePdfBuffer eng html options) w in
  launches evs
  = (if valid_html html
     then match browser w with Some _ => [] | None => [launch eng (trace w)] end
     else [])
  /\ browser (generatePdfBuffer eng html options w).2
     = match browser w with
       | Some b => Some b
       | None =>
           if valid_html html
           then match launch eng (trace w) with Ok b => Some b | Throw _ => None end
           else None
       end
  /\ browsers_closed evs = [].
Proof.
  destruct w as [b t]. cbv zeta.
  unfold events_of, generatePdfBuffer. rewrite guard_valid.
  destruct (valid_html html); cbn [negb];
    unfold initializeBrowser; unfold_M; cbn;
    repeat (case_match; simplify_eq/=);
    rewrite <- ?app_assoc, ?drop_app_length; cbn; auto.
Qed.

(** X4. When the engine cannot be started, the render throws the
    launch error, opens no page, and leaves the handle absent, so that
    the next render tries the launch again. *)
Theorem generatePdfBuffer_launch_failure eng html options w e :
  valid_html html = true ->
  browser w = None ->
  launch eng (trace w) = Throw e ->
  generatePdfBuffer eng html options w
  = (Throw e,
     {| browser := None;
        trace := trace w
                 ++ [EvLaunch (Throw e);
                     EvConsoleError
                       (js "Error occurred during PDF generation from HTML template: ")
                       e] |}).
Proof.
  destruct w as [b t]. cbn. intros Hv -> Hl.
  unfold generatePdfBuffer. rewrite guard_valid, Hv.
  unfold initializeBrowser. unfold_M. cbn. rewrite Hl. cbn.
  unfold log. cbn. rewrite <- ?app_assoc. reflexivity.
Qed.

Lemma generatePdfBuffer_launch_failure_witness :
  generatePdfBuffer absent_engine hello None boot
  = (Throw (new_Error "Failed to launch the browser process!"),
     {| browser := None;
        trace := [EvLaunch (Throw (new_Error "Failed to launch the browser process!"));
                  EvConsoleError
                    (js "Error occurred during PDF generation from HTML template: ")
                    (new_Error "Failed to launch the browser process!")] |}).
Proof.
  apply (generatePdfBuffer_launch_failure absent_engine hello None boot); reflexivity.
Defined.

(** X5. A capture is lost when closing the page fails: if [page.pdf]
    returned a buffer and [page.close()] then threw, the render throws
    the error of [close] and returns no buffer. *)
Theorem generatePdfBuffer_close_failure_discards_buffer eng html options w p o buf e :
  In (EvPdf p o (Ok buf)) (events_of (generatePdfBuffer eng html options) w) ->
  In (EvPageClose p (Throw e)) (events_of (generatePdfBuffer eng html options) w) ->
  (generatePdfBuffer eng html options w).1 = Throw e.
Proof.
  destruct w as [b t].
  run_events; intros; repeat (destruct_or?; simplify_eq); try tauto; reflexivity.
Qed.

Lemma generatePdfBuffer_close_failure_discards_buffer_witness :
  (generatePdfBuffer sticky_engine hello None boot).1
  = Throw (new_Error "Protocol error: Target closed").
Proof.
  apply (generatePdfBuffer_close_failure_discards_buffer sticky_engine hello None boot
           1 (pdfOptions None) (bytes_of "%PDF-1.4")).
  - do 3 right. left. reflexivity.
  - do 4 right. left. reflexivity.
Defined.

(** X6. After a shutdown that succeeded no handle is stored, and the
    next render of a valid template starts a new engine: it launches
    exactly once before anything else. *)
Theorem render_after_closeBrowser eng html options w w1 :
  closeBrowser eng w = (Ok tt, w1) ->
  valid_html html = true ->
  browser w1 = None
  /\ launches (events_of (generatePdfBuffer eng html options) w1)
     = [launch eng (trace w1)]
  /\ head (events_of (generatePdfBuffer eng html options) w1)
     = Some (EvLaunch (launch eng (trace w1))).
Proof.
  intros Hclose Hvalid.
  assert (browser w1 = None) as Hnone.
  { destruct w as [[b|] t]; unfold closeBrowser in Hclose; unfold_M; cbn in Hclose;
      repeat case_match; simplify_eq/=; reflexivity. }
  split; [exact Hnone|].
  destruct w1 as [b1 t1]. cbn in Hnone. subst b1.
  unfold events_of, generatePdfBuffer. rewrite guard_valid, Hvalid. cbn [negb].
  unfold initializeBrowser. unfold_M. cbn.
  repeat (case_match; simplify_eq/=);
    rewrite <- ?app_assoc, ?drop_app_length; cbn; auto.
Qed.

Lemma render_after_closeBrowser_witness :
  browser (closeBrowser sound_engine warm).2 = None
  /\ launches (events_of (generatePdfBuffer sound_engine hello None)
                 (closeBrowser sound_engine warm).2)
     = [Ok 2]
  /\ head (events_of (generatePdfBuffer sound_engine hello None)
             (closeBrowser sound_engine warm).2)
     = Some (EvLaunch (Ok 2)).
Proof.
  apply (render_after_closeBrowser sound_engine hello None warm
           (closeBrowser sound_engine warm).2); reflexivity.
Defined.

(** ** The Base64 text *)

(** The position of a character in the alphabet. *)
Definition base64_index (c : N) : option N :=
  if ((65 <=? c) && (c <=? 90))%N then Some (c - 65)%N
  else if ((97 <=? c) && (c <=? 122))%N then Some (c - 71)%N
  else if ((48 <=? c) && (c <=? 57))%N then Some (c + 4)%N
  else if (c =? 43)%N then Some 62%N
  else if (c =? 47)%N then Some 63%N
  else None.

(** The decoder of RFC 4648, as a reader of the text would run it:
    four characters to three bytes, the last group possibly padded. *)
Fixpoint unbase64 (s : jsstring) : option (list byte) :=
  match s with
  | [] => Some []
  | c0 :: c1 :: c2 :: c3 :: rest =>
      i0 ← base64_index c0;
      i1 ← base64_index c1;
      a ← Byte.of_N (N.lor (N.shiftl i0 2) (N.shiftr i1 4));
      if (c2 =? base64_pad)%N
      then match rest with
           | [] => if (c3 =? base64_pad)%N then Some [a] else None
           | _ => None
           end
      else
        i2 ← base64_index c2;
        b ← Byte.of_N (N.lor (N.shiftl (N.land i1 15) 4) (N.shiftr i2 2));
        if (c3 =? base64_pad)%N
        then match rest with [] => Some [a; b] | _ => None end
        else
          i3 ← base64_index c3;
          c ← Byte.of_N (N.lor (N.shiftl (N.land i2 3) 6) i3);
          tl ← unbase64 rest;
          Some (a :: b :: c :: tl)
  | _ => None
  end.

(** All the bytes, to settle facts about one or two bytes by running
    through them. *)
Definition bytes256 : list byte := omap Byte.of_N (map N.of_nat (seq 0 256)).

Lemma byte_in_bytes256 (a : byte) : In a bytes256.
Proof.
  replace a with (nth (N.to_nat (Byte.to_N a)) bytes256 Byte.x00)
    by (destruct a; reflexivity).
  apply nth_In. destruct a; vm_compute; lia.
Qed.

Lemma every_byte (P : byte -> bool) :
  forallb P bytes256 = true -> forall a, P a = true.
Proof.
  intros H a. rewrite forallb_forall in H. apply H, byte_in_bytes256.
Qed.

Lemma every_two_bytes (P : byte -> byte -> bool) :
  forallb (fun a => forallb (P a) bytes256) bytes256 = true ->
  forall a b, P a b = true.
Proof.
  intros H a b. apply every_byte. revert a. apply every_byte. exact H.
Qed.

(** The four indices of a group, as [base64] computes them. *)
Definition sextet0 (a : N) : N := N.shiftr a 2.
Definition sextet1 (a b : N) : N := N.lor (N.shiftl (N.land a 3) 4) (N.shiftr b 4).
Definition sextet2 (b c : N) : N := N.lor (N.shiftl (N.land b 15) 2) (N.shiftr c 6).
Definition sextet3 (c : N) : N := N.land c 63.

Lemma sextets_of_two_bytes (x y : byte) :
  let a := Byte.to_N x in
  let b := Byte.to_N y in
  (sextet0 a <? 64)%N = true
  /\ (sextet1 a b <? 64)%N = true
  /\ (sextet2 a b <? 64)%N = true
  /\ (sextet3 a <? 64)%N = true
  /\ N.lor (N.shiftl (sextet0 a) 2) (N.shiftr (sextet1 a b) 4) = a
  /\ N.land (sextet1 a b) 15 = N.shiftr b 4
  /\ N.shiftr (sextet2 a b) 2 = N.land a 15
  /\ N.lor (N.shiftl (N.shiftr a 4) 4) (N.land a 15) = a
  /\ N.lor (N.shiftl (N.land (sextet2 a b) 3) 6) (sextet3 b) = b
  /\ N.lor (N.shiftl (sextet0 a) 2) (N.shiftr (N.shiftl (N.land a 3) 4) 4) = a
  /\ N.shiftr (N.shiftl (N.land a 15) 2) 2 = N.land a 15
  /\ (N.shiftl (N.land a 3) 4 <? 64)%N = true
  /\ (N.shiftl (N.land a 15) 2 <? 64)%N = true.
Proof.
  cbv zeta.
  pose (P := fun x y : byte =>
    let a := Byte.to_N x in
    let b := Byte.to_N y in
    ((sextet0 a <? 64) && (sextet1 a b <? 64) && (sextet2 a b <? 64) && (sextet3 a <? 64)
     && (N.lor (N.shiftl (sextet0 a) 2) (N.shiftr (sextet1 a b) 4) =? a)
     && (N.land (sextet1 a b) 15 =? N.shiftr b 4)
     && (N.shiftr (sextet2 a b) 2 =? N.land a 15)
     && (N.lor (N.shiftl (N.shiftr a 4) 4) (N.land a 15) =? a)
     && (N.lor (N.shiftl (N.land (sextet2 a b) 3) 6) (sextet3 b) =? b)
     && (N.lor (N.shiftl (sextet0 a) 2) (N.shiftr (N.shiftl (N.land a 3) 4) 4) =? a)
     && (N.shiftr (N.shiftl (N.land a 15) 2) 2 =? N.land a 15)
     && (N.shiftl (N.land a 3) 4 <? 64)
     && (N.shiftl (N.land a 15) 2 <? 64))%N).
  assert (P x y = true) as H by (apply every_two_bytes; vm_compute; reflexivity).
  unfold P in H. cbv zeta in H.
  repeat (apply andb_prop in H as [H ?]).
  repeat match goal with
         | E : (_ =? _)%N = true |- _ => apply N.eqb_eq in E
         end.
  repeat split; assumption.
Qed.


Lemma base64_index_char i :
  (i < 64)%N ->
  base64_index (base64_char i) = Some i
  /\ (base64_char i =? base64_pad)%N = false.
Proof.
  intros Hi.
  assert (In i (map N.of_nat (seq 0 64))) as Hin.
  { rewrite <- (N2Nat.id i). apply in_map, in_seq. lia. }
  clear Hi. revert i Hin. apply List.Forall_forall. vm_compute.
  repeat constructor.
Qed.

Lemma unbase64_group c0 c1 c2 c3 rest :
  unbase64 (c0 :: c1 :: c2 :: c3 :: rest)
  = (i0 ← base64_index c0;
     i1 ← base64_index c1;
     a ← Byte.of_N (N.lor (N.shiftl i0 2) (N.shiftr i1 4));
     if (c2 =? base64_pad)%N
     then match rest with
          | [] => if (c3 =? base64_pad)%N then Some [a] else None
          | _ => None
          end
     else
       i2 ← base64_index c2;
       b ← Byte.of_N (N.lor (N.shiftl (N.land i1 15) 4) (N.shiftr i2 2));
       if (c3 =? base64_pad)%N
       then match rest with [] => Some [a; b] | _ => None end
       else
         i3 ← base64_index c3;
         c ← Byte.of_N (N.lor (N.shiftl (N.land i2 3) 6) i3);
         tl ← unbase64 rest;
         Some (a :: b :: c :: tl)).
Proof. reflexivity. Qed.

(** Decoding the text gives the bytes back. *)
Lemma unbase64_base64 bs : unbase64 (base64 bs) = Some bs.
Proof.
  assert (forall n bs, length bs < n -> unbase64 (base64 bs) = Some bs) as Hn.
  { clear bs. induction n as [|n IH]; intros bs Hlt; [lia|].
    destruct bs as [|x [|y [|z rest]]]; [reflexivity|..].
    - (* one byte *)
      destruct (sextets_of_two_bytes x x)
        as (H0 & _ & _ & _ & _ & _ & _ & _ & _ & Ha & _ & H1 & _).
      apply N.ltb_lt in H0, H1.
      destruct (base64_index_char _ H0) as [E0 _].
      destruct (base64_index_char _ H1) as [E1 _].
      cbn [base64]. rewrite unbase64_group.
      fold (sextet0 (Byte.to_N x)). rewrite E0, E1. cbn [mbind option_bind].
      rewrite Ha, Byte.of_to_N. reflexivity.
    - (* two bytes *)
      destruct (sextets_of_two_bytes x y)
        as (H0 & H1 & _ & _ & Ha & Hb1 & _ & _ & _ & _ & _ & _ & _).
      destruct (sextets_of_two_bytes y y)
        as (_ & _ & _ & _ & _ & _ & _ & Hb & _ & _ & Hb2 & _ & H2).
      apply N.ltb_lt in H0, H1, H2.
      destruct (base64_index_char _ H0) as [E0 _].
      destruct (base64_index_char _ H1) as [E1 _].
      destruct (base64_index_char _ H2) as [E2 P2].
      cbn [base64]. rewrite unbase64_group.
      fold (sextet0 (Byte.to_N x)). fold (sextet1 (Byte.to_N x) (Byte.to_N y)).
      rewrite E0, E1, P2, E2. cbn [mbind option_bind].
      rewrite Ha, Byte.of_to_N. cbn [mbind option_bind].
      rewrite Hb1, Hb2, Hb, Byte.of_to_N. reflexivity.
    - (* three bytes and the rest *)
      destruct (sextets_of_two_bytes x y)
        as (H0 & H1 & _ & _ & Ha & Hb1 & _ & _ & _ & _ & _ & _ & _).
      destruct (sextets_of_two_bytes y z)
        as (_ & _ & H2 & _ & _ & _ & Hb2 & Hb & Hc & _ & _ & _ & _).
      destruct (sextets_of_two_bytes z z) as (_ & _ & _ & H3 & _).
      apply N.ltb_lt in H0, H1, H2, H3.
      destruct (base64_index_char _ H0) as [E0 _].
      destruct (base64_index_char _ H1) as [E1 _].
      destruct (base64_index_char _ H2) as [E2 P2].
      destruct (base64_index_char _ H3) as [E3 P3].
      cbn [base64]. rewrite unbase64_group.
      fold (sextet0 (Byte.to_N x)). fold (sextet1 (Byte.to_N x) (Byte.to_N y)).
      fold (sextet2 (Byte.to_N y) (Byte.to_N z)). fold (sextet3 (Byte.to_N z)).
      rewrite E0, E1, P2, E2, P3, E3. cbn [mbind option_bind].
      rewrite Ha, Byte.of_to_N. cbn [mbind option_bind].
      rewrite Hb1, Hb2, Hb, Byte.of_to_N. cbn [mbind option_bind].
      rewrite Hc, Byte.of_to_N. cbn [mbind option_bind].
      rewrite IH by (cbn [length] in Hlt; lia). reflexivity. }
  apply (Hn (S (length bs))). lia.
Qed.

Lemma base64_char_in_alphabet i : (i < 64)%N -> In (base64_char i) base64_alphabet.
Proof.
  intros Hi. unfold base64_char. apply nth_In.
  change (length base64_alphabet) with 64. lia.
Qed.

(** The text is made of the 64 characters of the alphabet and of [=]. *)
Lemma base64_charset bs :
  Forall (fun c => In c base64_alphabet \/ c = base64_pad) (base64 bs).
Proof.
  assert (forall n bs, length bs < n ->
            Forall (fun c => In c base64_alphabet \/ c = base64_pad) (base64 bs)) as Hn.
  { clear bs. induction n as [|n IH]; intros bs Hlt; [lia|].
    destruct bs as [|x [|y [|z rest]]]; [constructor|..].
    - destruct (sextets_of_two_bytes x x)
        as (H0 & _ & _ & _ & _ & _ & _ & _ & _ & _ & _ & H1 & _).
      apply N.ltb_lt in H0, H1. cbn [base64].
      repeat (apply Forall_cons; split;
              [first [left; apply base64_char_in_alphabet; assumption
                     | right; reflexivity] |]).
      apply Forall_nil_2.
    - destruct (sextets_of_two_bytes x y) as (H0 & H1 & _).
      destruct (sextets_of_two_bytes y y)
        as (_ & _ & _ & _ & _ & _ & _ & _ & _ & _ & _ & _ & H2).
      apply N.ltb_lt in H0, H1, H2. cbn [base64].
      repeat (apply Forall_cons; split;
              [first [left; apply base64_char_in_alphabet; assumption
                     | right; reflexivity] |]).
      apply Forall_nil_2.
    - destruct (sextets_of_two_bytes x y) as (H0 & H1 & _).
      destruct (sextets_of_two_bytes y z) as (_ & _ & H2 & _).
      destruct (sextets_of_two_bytes z z) as (_ & _ & _ & H3 & _).
      apply N.ltb_lt in H0, H1, H2, H3. cbn [base64].
      do 4 (apply Forall_cons; split;
              [left; apply base64_char_in_alphabet; assumption |]).
      apply IH. cbn [length] in Hlt. lia. }
  apply (Hn (S (length bs))). lia.
Qed.

(** X7. The text returned by [generatePdf] is faithful to the buffer:
    whenever [generatePdf] returns a text, [generatePdfBuffer] on the
    same arguments returns a buffer that the RFC 4648 decoder recovers
    from the text, byte for byte; the text is four characters for every
    three bytes, rounded up. *)
Theorem generatePdf_text_decodes eng html options w text w' :
  generatePdf eng html options w = (Ok text, w') ->
  exists buf,
    generatePdfBuffer eng html options w = (Ok buf, w')
    /\ unbase64 text = Some buf
    /\ length text = 4 * ((length buf + 2) / 3).
Proof.
  unfold generatePdf. unfold_M.
  destruct (generatePdfBuffer eng html options w) as [[buf|e] w1]; [|discriminate].
  intros [= <- <-]. exists buf.
  split; [reflexivity|]. split; [apply unbase64_base64 | apply base64_length].
Qed.

Lemma generatePdf_text_decodes_witness :
  exists buf,
    generatePdfBuffer sound_engine hello None boot
    = (Ok buf, (generatePdf sound_engine hello None boot).2)
    /\ unbase64 (js "JVBERi0xLjQ=") = Some buf
    /\ length (js "JVBERi0xLjQ=") = 4 * ((length buf + 2) / 3).
Proof.
  apply (generatePdf_text_decodes sound_engine hello None boot). reflexivity.
Defined.

(** X8. Different buffers never give the same text, and the text holds
    only the characters [A-Z a-z 0-9 + /] and the padding [=]: it can be
    sent as plain text. *)
Theorem base64_injective_ascii b1 b2 :
  (base64 b1 = base64 b2 -> b1 = b2)
  /\ Forall (fun c => In c base64_alphabet \/ c = base64_pad) (base64 b1)
  /\ Forall (fun c => (c < 128)%N) (base64 b1).
Proof.
  split; [|split].
  - intros H. apply (f_equal unbase64) in H.
    rewrite !unbase64_base64 in H. congruence.
  - apply base64_charset.
  - eapply Forall_impl; [apply base64_charset|].
    intros c [Hin | ->]; [|reflexivity].
    revert c Hin. apply List.Forall_forall. vm_compute. repeat constructor.
Qed.

Lemma base64_injective_ascii_witness :
  (base64 (bytes_of "%PDF-1.4") = base64 (bytes_of "%PDF-1.4") ->
   bytes_of "%PDF-1.4" = bytes_of "%PDF-1.4")
  /\ Forall (fun c => In c base64_alphabet \/ c = base64_pad)
       (base64 (bytes_of "%PDF-1.4"))
  /\ Forall (fun c => (c < 128)%N) (base64 (bytes_of "%PDF-1.4")).
Proof.
  apply (base64_injective_ascii (bytes_of "%PDF-1.4") (bytes_of "%PDF-1.4")).
Defined.

(** * Further properties of the routes *)



(** The options each route passes to the renderer. *)
Definition options_of (rt : route) (req : gmap jsstring value) : option GeneratePdfOptions :=
  match rt with
  | Legacy => None
  | Generate | Download => Some (build_options req)
  end.


Lemma handler_invalid eng rt req w :
  valid_html (field req "htmlTemplate") = false ->
  handler eng rt req w = (Ok invalid_request, w).
Proof.
  intros Hv.
  destruct rt; cbn [handler];
    unfold post_Utility_GeneratePdf, post_pdf_generate, post_pdf_download;
    cbv zeta; rewrite guard_valid, Hv; reflexivity.
Qed.

(** [{ htmlTemplate: '' }] *)
Definition blank_body : gmap jsstring value := <[js "htmlTemplate" := VStr []]> ∅.




(** The status a handler answers with. *)
Definition status_of (x : result Response * World) : option nat :=
  match x.1 with Ok resp => Some (statusCode resp) | Throw _ => None end.

(** The empty template is answered 400; a render that fails is
    answered 500; a render that works is answered 200. *)
Example handler_statuses :
  map (fun rt => status_of (handler sound_engine rt blank_body boot))
      [Legacy; Generate; Download]
  = [Some 400; Some 400; Some 400]
  /\ map (fun rt => status_of (handler stalling_engine rt hello_body boot))
       [Legacy; Generate; Download]
     = [Some 500; Some 500; Some 500]
  /\ map (fun rt => status_of (handler sound_engine rt hello_body boot))
       [Legacy; Generate; Download]
     = [Some 200; Some 200; Some 200].
Proof. repeat split. Qed.

(** The [pdf] field of the JSON route's answer. *)
Definition pdf_field (resp : Response) : option jsstring :=
  match body resp with
  | Json (VObj o) => match o !! js "pdf" with Some (VStr s) => Some s | _ => None end
  | _ => None
  end.

(** X10. What the routes send when the render succeeds is the capture
    of the engine, whole.  If the render of the route returns the buffer
    [buf] (which [page.pdf] returned): the legacy route sends the Base64
    text of [buf] as [text/plain]; the JSON route sends status 200 with
    [success: true] and that same text as [pdf], and decoding [pdf]
    gives [buf] back; the download route, for a [fileName] that is
    absent or a string, sends [buf] itself as the body, with
    [Content-Type: application/pdf] and [Content-Length] its length. *)
Theorem routes_send_the_capture eng rt req w buf w' :
  valid_html (field req "htmlTemplate") = true ->
  generatePdfBuffer eng (field req "htmlTemplate") (options_of rt req) w = (Ok buf, w') ->
  (exists p,
      In (EvPdf p (pdfOptions (options_of rt req)) (Ok buf))
         (events_of (generatePdfBuffer eng (field req "htmlTemplate")
                       (options_of rt req)) w))
  /\ match rt with
     | Legacy =>
         handler eng rt req w
         = (Ok {| statusCode := 200;
                  headers := {[ js "Content-Type" := HText (js "text/plain") ]};
                  body := Text (base64 buf) |}, w')
     | Generate =>
         exists resp,
           handler eng rt req w = (Ok resp, w')
           /\ statusCode resp = 200
           /\ body resp
              = Json (VObj (<[js "success" := VBool true]>
                           (<[js "pdf" := VStr (base64 buf)]>
                           (<[js "message" := VStr (js "PDF generated successfully")]> ∅))))
           /\ pdf_field resp = Some (base64 buf)
           /\ (pdf_field resp ≫= unbase64) = Some buf
     | Download =>
         truthy (field req "fileName") = false \/ is_string (field req "fileName") = true ->
         exists resp,
           handler eng rt req w = (Ok resp, w')
           /\ statusCode resp = 200
           /\ body resp = Binary buf
           /\ headers resp !! js "Content-Type" = Some (HText (js "application/pdf"))
           /\ headers resp !! js "Content-Length" = Some (HNumber (length buf))
     end.
Proof.
  intros Hvalid Hrender. split.
  - apply (generatePdfBuffer_buffer_from_pdf _ _ _ _ _ _ Hrender).
  - destruct rt; cbn [handler options_of] in *.
    + rewrite post_Utility_GeneratePdf_eq by exact Hvalid.
      unfold generatePdf. erewrite bind_Ok by exact Hrender. reflexivity.
    + rewrite post_pdf_generate_eq by exact Hvalid.
      unfold generatePdf. erewrite bind_Ok by exact Hrender.
      eexists. split; [reflexivity|]. split; [reflexivity|]. split; [reflexivity|].
      assert (pdf_field
                (json (VObj (<[js "success" := VBool true]>
                            (<[js "pdf" := VStr (base64 buf)]>
                            (<[js "message" := VStr (js "PDF generated successfully")]> ∅))))
                   (status 200 res)) = Some (base64 buf)) as Hfield.
      { unfold pdf_field, json, send. cbn [body].
        rewrite lookup_insert_ne by (vm_compute; discriminate).
        rewrite lookup_insert_eq. reflexivity. }
      split; [exact Hfield|]. rewrite Hfield. cbn. apply unbase64_base64.
    + intros Hname. rewrite post_pdf_download_eq, Hrender by exact Hvalid.
      assert (exists name, replace_unsafe
                (js_or (field req "fileName") (VStr (js "document"))) = Ok name)
        as [name ->].
      { unfold js_or. destruct Hname as [-> | Hs]; [eexists; reflexivity|].
        destruct (field req "fileName"); try discriminate Hs.
        destruct (truthy _); eexists; reflexivity. }
      eexists. split; [reflexivity|]. split; [reflexivity|]. split; [reflexivity|].
      split; reflexivity.
Qed.

Lemma routes_send_the_capture_witness :
  exists resp,
    handler sound_engine Generate hello_body boot
    = (Ok resp, (generatePdfBuffer sound_engine hello
                   (options_of Generate hello_body) boot).2)
    /\ statusCode resp = 200
    /\ body resp
       = Json (VObj (<[js "success" := VBool true]>
                    (<[js "pdf" := VStr (base64 (bytes_of "%PDF-1.4"))]>
                    (<[js "message" := VStr (js "PDF generated successfully")]> ∅))))
    /\ pdf_field resp = Some (base64 (bytes_of "%PDF-1.4"))
    /\ (pdf_field resp ≫= unbase64) = Some (bytes_of "%PDF-1.4").
Proof.
  apply (proj2 (routes_send_the_capture sound_engine Generate hello_body boot
                  (bytes_of "%PDF-1.4")
                  (generatePdfBuffer sound_engine hello
                     (options_of Generate hello_body) boot).2 eq_refl eq_refl)).
Defined.

(** X11. The legacy route is the JSON route without options: it never
    reads [paperSize], [margin] or [printBackground], so two requests
    with the same [htmlTemplate] get the same answer from it; and on a
    request that carries none of the three, the JSON route makes the
    very same engine calls and leaves the same state. *)
Theorem legacy_route_ignores_options eng req req' w :
  field req' "htmlTemplate" = field req "htmlTemplate" ->
  post_Utility_GeneratePdf eng req' w = post_Utility_GeneratePdf eng req w
  /\ (field req "paperSize" = VUndefined ->
      field req "margin" = VUndefined ->
      field req "printBackground" = VUndefined ->
      (post_pdf_generate eng req w).2 = (post_Utility_GeneratePdf eng req w).2
      /\ status_of (post_pdf_generate eng req w)
         = status_of (post_Utility_GeneratePdf eng req w)).
Proof.
  intros Hsame. split.
  - unfold post_Utility_GeneratePdf. cbv zeta. rewrite Hsame. reflexivity.
  - intros Hp Hm Hb.
    destruct (valid_html (field req "htmlTemplate")) eqn:Hvalid.
    + rewrite post_pdf_generate_eq, post_Utility_GeneratePdf_eq by exact Hvalid.
      assert (generatePdf eng (field req "htmlTemplate") (Some (build_options req)) w
              = generatePdf eng (field req "htmlTemplate") None w) as ->.
      { unfold generatePdf, generatePdfBuffer.
        assert (pdfOptions (Some (build_options req)) = pdfOptions None) as ->;
          [|reflexivity].
        unfold pdfOptions, build_options.
        cbn [from_option paperSize margin printBackground].
        rewrite Hp, Hm, Hb. reflexivity. }
      destruct (generatePdf eng _ None w) as [[s|e] w']; split; reflexivity.
    + pose proof (handler_invalid eng Legacy req w Hvalid) as H1.
      pose proof (handler_invalid eng Generate req w Hvalid) as H2.
      cbn [handler] in H1, H2. rewrite H1, H2. split; reflexivity.
Qed.

(** [{ htmlTemplate: hello, paperSize: 'A3', printBackground: false }] *)
Definition a3_body : gmap jsstring value :=
  <[js "paperSize" := VStr (js "A3")]> (<[js "printBackground" := VBool false]> hello_body).

Lemma legacy_route_ignores_options_witness :
  post_Utility_GeneratePdf sound_engine a3_body boot
  = post_Utility_GeneratePdf sound_engine hello_body boot
  /\ (post_pdf_generate sound_engine hello_body boot).2
     = (post_Utility_GeneratePdf sound_engine hello_body boot).2.
Proof.
  split.
  - apply (legacy_route_ignores_options sound_engine hello_body a3_body boot).
    reflexivity.
  - apply (proj2 (legacy_route_ignores_options sound_engine hello_body hello_body boot
                    eq_refl)); reflexivity.
Defined.

(** The JSON route does read them. *)
Example generate_route_reads_options :
  print_parameters (trace (post_pdf_generate sound_engine a3_body boot).2)
  = [pdfOptions (Some (build_options a3_body))]
  /\ PDFOptions.format (pdfOptions (Some (build_options a3_body))) = VStr (js "A3")
  /\ PDFOptions.printBackground (pdfOptions (Some (build_options a3_body))) = false
  /\ print_parameters (trace (post_Utility_GeneratePdf sound_engine a3_body boot).2)
     = [pdfOptions None].
Proof. repeat split. Qed.

(** X12. Whatever JSON value [fileName] is, an attachment sent by the
    download route carries a file name that is not empty and holds only
    characters of [[A-Za-z0-9-_]]: no quote, no line break and no path
    separator can reach the [Content-Disposition] header. *)
Theorem download_header_is_safe eng req w resp w' :
  post_pdf_download eng req w = (Ok resp, w') ->
  statusCode resp = 200 ->
  exists name,
    headers resp !! js "Content-Disposition" = Some (HText (content_disposition name))
    /\ name <> []
    /\ Forall (fun c => safe_char c = true) name
    /\ ~ In dquote name /\ ~ In 13%N name /\ ~ In 10%N name
    /\ ~ In slash name /\ ~ In backslash name.
Proof.
  intros Hresp H200.
  destruct (valid_html (field req "htmlTemplate")) eqn:Hvalid.
  2:{ pose proof (handler_invalid eng Download req w Hvalid) as H. cbn [handler] in H.
      rewrite H in Hresp. injection Hresp as <- <-. discriminate H200. }
  rewrite post_pdf_download_eq in Hresp by exact Hvalid.
  destruct (generatePdfBuffer eng _ _ w) as [[buf|e] w1].
  2:{ injection Hresp as <- <-. discriminate H200. }
  assert (exists s, s <> []
            /\ replace_unsafe (js_or (field req "fileName") (VStr (js "document")))
               = match js_or (field req "fileName") (VStr (js "document")) with
                 | VStr _ => Ok (mask s)
                 | _ => Throw replace_is_not_a_function
                 end) as (s & Hs & Hrep).
  { unfold js_or. destruct (truthy (field req "fileName")) eqn:Ht.
    - destruct (field req "fileName") as [| | | |[|c s]| |];
        try (exists (js "document"); split; [discriminate | reflexivity]).
      + discriminate Ht.
      + exists (c :: s). split; [discriminate | reflexivity].
    - exists (js "document"). split; [discriminate | reflexivity]. }
  rewrite Hrep in Hresp.
  destruct (js_or (field req "fileName") (VStr (js "document")));
    try (injection Hresp as <- <-; discriminate H200).
  injection Hresp as <- <-.
  exists (mask s). split; [reflexivity|].
  split; [destruct s; [contradiction | discriminate]|].
  pose proof (mask_safe s) as Hsafe. split; [exact Hsafe|].
  rewrite Forall_forall in Hsafe.
  repeat split; intros Hin; apply list_elem_of_In, Hsafe in Hin; discriminate Hin.
Qed.

(** A file name with a double quote, a carriage return, a line feed and
    a slash in it: [a], quote, [b], CR, LF, [c/d]. *)
Definition hostile_name : jsstring := js "a" ++ [dquote] ++ js "b" ++ [13; 10]%N ++ js "c/d".

Lemma download_header_is_safe_witness :
  exists name,
    headers (attachment (mask hostile_name) (bytes_of "%PDF-1.4"))
      !! js "Content-Disposition" = Some (HText (content_disposition name))
    /\ name <> []
    /\ Forall (fun c => safe_char c = true) name
    /\ ~ In dquote name /\ ~ In 13%N name /\ ~ In 10%N name
    /\ ~ In slash name /\ ~ In backslash name.
Proof.
  apply (download_header_is_safe sound_engine (named (VStr hostile_name)) boot
           (attachment (mask hostile_name) (bytes_of "%PDF-1.4"))
           (post_pdf_download sound_engine (named (VStr hostile_name)) boot).2);
    reflexivity.
Defined.

Example hostile_name_masked : mask hostile_name = js "a_b__c_d".
Proof. reflexivity. Qed.

(** * The executable of the engine ([puppeteer-core] variant) *)

(** What [getChromePath] reads of the process: [process.platform],
    [process.env], and whether [fs.accessSync] accepts a path. *)
Record Process : Type := {
  platform : jsstring;
  env : gmap jsstring jsstring;
  accessible : jsstring -> bool
}.

(** [process.env[k] + suffix]: an unset variable reads [undefined],
    which [+] turns into the text ["undefined"]. *)
Definition env_plus (p : Process) (k suffix : string) : jsstring :=
  match env p !! js k with
  | Some v => v
  | None => js "undefined"
  end ++ js suffix.

Definition windowsPaths (p : Process) : list jsstring :=
  [env_plus p "PROGRAMFILES(X86)" "\Google\Chrome\Application\chrome.exe";
   env_plus p "PROGRAMFILES" "\Google\Chrome\Application\chrome.exe";
   env_plus p "LOCALAPPDATA" "\Google\Chrome\Application\chrome.exe";
   js "C:\Program Files\Google\Chrome\Application\chrome.exe";
   js "C:\Program Files (x86)\Google\Chrome\Application\chrome.exe"].

Definition getChromePath (p : Process) : jsstring :=
  if bool_decide (platform p = js "win32") then
    match find (accessible p) (windowsPaths p) with
    | Some (c :: found) => c :: found
    | _ => default [] (head (windowsPaths p))
    end
  else if bool_decide (platform p = js "darwin") then
    js "/Applications/Google Chrome.app/Contents/MacOS/Google Chrome"
  else
    js "/usr/bin/google-chrome".

(** [process.env.CHROME_PATH || getChromePath()], the [executablePath]
    handed to [puppeteer.launch]. *)
Definition executablePath (p : Process) : jsstring :=
  match env p !! js "CHROME_PATH" with
  | Some (c :: path) => c :: path
  | _ => getChromePath p
  end.

Lemma find_first {A} (f : A -> bool) (l : list A) (x : A) :
  find f l = Some x ->
  f x = true
  /\ exists before after, l = before ++ x :: after /\ forallb (fun y => negb (f y)) before = true.
Proof.
  induction l as [|a l IH]; [discriminate|]. cbn.
  destruct (f a) eqn:Ha.
  - intros [= ->]. split; [exact Ha|]. exists [], l. split; reflexivity.
  - intros H. destruct (IH H) as (Hx & before & after & -> & Hb).
    split; [exact Hx|]. exists (a :: before), after. split; [reflexivity|].
    cbn. rewrite Ha. exact Hb.
Qed.

Lemma find_none {A} (f : A -> bool) (l : list A) :
  find f l = None <-> existsb f l = false.
Proof.
  induction l as [|a l IH]; cbn; [tauto|].
  destruct (f a); cbn; [split; discriminate | exact IH].
Qed.

(** X13. Which executable is launched.  A non-empty [CHROME_PATH] is
    used as it is, on every platform and without looking at the file
    system.  Otherwise, on Windows the path is the first of the five
    candidates that the file system accepts, and the first candidate
    when it accepts none (then the path returned is one that is not
    accessible); it is always one of the five.  On macOS and on every
    other platform it is a fixed path, whatever the environment and the
    file system. *)
Theorem executablePath_choice (p : Process) :
  (forall c path, env p !! js "CHROME_PATH" = Some (c :: path) ->
                  executablePath p = c :: path)
  /\ (env p !! js "CHROME_PATH" = None \/ env p !! js "CHROME_PATH" = Some [] ->
      executablePath p = getChromePath p)
  /\ (platform p = js "win32" ->
      In (getChromePath p) (windowsPaths p)
      /\ (existsb (accessible p) (windowsPaths p) = true ->
          accessible p (getChromePath p) = true
          /\ exists before after,
              windowsPaths p = before ++ getChromePath p :: after
              /\ forallb (fun c => negb (accessible p c)) before = true)
      /\ (existsb (accessible p) (windowsPaths p) = false ->
          head (windowsPaths p) = Some (getChromePath p)
          /\ accessible p (getChromePath p) = false))
  /\ (platform p = js "darwin" ->
      getChromePath p = js "/Applications/Google Chrome.app/Contents/MacOS/Google Chrome")
  /\ (platform p <> js "win32" -> platform p <> js "darwin" ->
      getChromePath p = js "/usr/bin/google-chrome").
Proof.
  split; [|split; [|split; [|split]]].
  - intros c path H. unfold executablePath. rewrite H. reflexivity.
  - intros [H|H]; unfold executablePath; rewrite H; reflexivity.
  - intros Hwin. unfold getChromePath. rewrite bool_decide_eq_true_2 by exact Hwin.
    destruct (find (accessible p) (windowsPaths p)) as [found|] eqn:Hfind.
    + destruct (find_first _ _ _ Hfind) as (Hacc & before & after & Hsplit & Hbefore).
      assert (found <> []) as Hne.
      { intros ->. assert (In [] (windowsPaths p)) as Hin
          by (rewrite Hsplit; apply in_elt).
        unfold windowsPaths, env_plus in Hin. cbn [In] in Hin.
        repeat destruct Hin as [Hin|Hin];
          try (apply app_eq_nil in Hin as [_ Hin]);
          try discriminate Hin; contradiction. }
      destruct found as [|c found]; [contradiction|].
      split; [rewrite Hsplit; apply in_elt|].
      split.
      * intros _. split; [exact Hacc|]. exists before, after. split; assumption.
      * intros Hnone. apply find_none in Hnone. congruence.
    + cbn [head windowsPaths default from_option id].
      split; [left; reflexivity|]. split.
      * intros Hsome. apply find_none in Hfind. congruence.
      * intros Hnone. split; [reflexivity|].
        rewrite <- not_true_iff_false. intros Hacc.
        apply find_none in Hfind.
        rewrite <- not_true_iff_false in Hfind. apply Hfind.
        apply existsb_exists. eexists. split; [left; reflexivity | exact Hacc].
  - intros Hmac. unfold getChromePath.
    rewrite bool_decide_eq_false_2
      by (rewrite Hmac; intros H; apply (f_equal length) in H; discriminate H).
    rewrite bool_decide_eq_true_2 by exact Hmac. reflexivity.
  - intros Hw Hm. unfold getChromePath.
    rewrite !bool_decide_eq_false_2 by assumption. reflexivity.
Qed.

(** A Windows machine with no variable set, on which Chrome is
    installed under [C:\Program Files]. *)
Definition windows_box : Process :=
  {| platform := js "win32";
     env := ∅;
     accessible := fun path =>
       bool_decide (path = js "C:\Program Files\Google\Chrome\Application\chrome.exe") |}.

(** The same machine without Chrome. *)
Definition bare_windows_box : Process :=
  {| platform := js "win32"; env := ∅; accessible := fun _ => false |}.

Lemma executablePath_choice_witness :
  executablePath windows_box = js "C:\Program Files\Google\Chrome\Application\chrome.exe"
  /\ accessible windows_box (getChromePath windows_box) = true
  /\ getChromePath bare_windows_box
     = js "undefined\Google\Chrome\Application\chrome.exe"
  /\ accessible bare_windows_box (getChromePath bare_windows_box) = false.
Proof.
  destruct (executablePath_choice windows_box) as (_ & Hfallback & Hwin & _).
  destruct (executablePath_choice bare_windows_box) as (_ & _ & Hbare & _).
  specialize (Hfallback (or_introl eq_refl)).
  destruct (Hwin eq_refl) as (_ & Hsome & _).
  destruct (Hbare eq_refl) as (_ & _ & Hnone).
  split; [rewrite Hfallback; reflexivity|].
  split; [apply Hsome; reflexivity|].
  split; [reflexivity|].
  apply Hnone. reflexivity.
Defined.

(** * Further properties of interleaved initialization *)

(** The callers that have not entered yet. *)
Definition at_entry : list init_task -> nat :=
  weigh (fun t => match t with AtEntry => 1 | _ => 0 end).

Lemma launches_snoc tr ev :
  launches (tr ++ [ev]) = launches tr ++ match ev with EvLaunch r => [r] | _ => [] end.
Proof.
  unfold launches. rewrite omap_app. f_equal. destruct ev; reflexivity.
Qed.

Lemma step_at_launch_budget eng i st :
  length (launches (trace (step_at eng i st).2)) + at_entry (step_at eng i st).1
  <= length (launches (trace st.2)) + at_entry st.1.
Proof.
  destruct st as [pl [b t]]. unfold step_at. cbn [fst snd].
  destruct (pl !! i) as [task|] eqn:Hi; [|reflexivity].
  pose proof (weigh_insert (fun t => match t with AtEntry => 1 | _ => 0 end) pl i task Hi)
    as Hins.
  fold at_entry in Hins.
  destruct task as [|[h|e]|r]; cbn [init_step browser trace].
  - destruct b as [b|]; cbn [fst snd trace log].
    + specialize (Hins (Returned (Ok tt))). cbn beta iota in Hins. lia.
    + specialize (Hins (AwaitingLaunch (launch eng t))). cbn beta iota in Hins.
      rewrite launches_snoc, length_app. cbn [length]. lia.
  - specialize (Hins (Returned (Ok tt))). cbn beta iota in Hins. cbn [fst snd trace]. lia.
  - specialize (Hins (Returned (Throw e))). cbn beta iota in Hins. cbn [fst snd trace]. lia.
  - specialize (Hins (Returned r)). cbn beta iota in Hins. cbn [fst snd trace]. lia.
Qed.

Lemma run_launch_budget eng sched st :
  length (launches (trace (run eng sched st).2)) + at_entry (run eng sched st).1
  <= length (launches (trace st.2)) + at_entry st.1.
Proof.
  revert st. induction sched as [|i sched IH]; intros st; [reflexivity|].
  cbn [run foldl]. fold (run eng sched (step_at eng i st)).
  pose proof (step_at_launch_budget eng i st). specialize (IH (step_at eng i st)). lia.
Qed.

(** X14. Whatever the interleaving, a caller of [initializeBrowser]
    launches at most once: the launches made are at most as many as the
    callers that had not entered yet.  A caller has returned after two
    resumptions at the latest, and a caller that has returned launches
    nothing any more. *)
Theorem each_caller_launches_at_most_once eng sched pl w :
  length (launches (trace (run eng sched (pl, w)).2))
  <= length (launches (trace w)) + at_entry pl
  /\ (forall t w0,
        exists r, (init_step eng (init_step eng t w0).1 (init_step eng t w0).2).1
                  = Returned r)
  /\ (forall r w0, init_step eng (Returned r) w0 = (Returned r, w0))
  /\ (browser w = None ->
      forall i, pl !! i = Some AtEntry ->
        launches (trace (step_at eng i (pl, w)).2)
        = launches (trace w) ++ [launch eng (trace w)]).
Proof.
  split; [|split; [|split]].
  - pose proof (run_launch_budget eng sched (pl, w)) as H. cbn [fst snd] in H. lia.
  - intros [|[h|e]|r] [b t]; cbn; [|eauto..].
    destruct b; cbn; [eauto|]. destruct (launch eng t); cbn; eauto.
  - reflexivity.
  - intros Hnone i Hi. destruct w as [b t]. cbn in Hnone. subst b.
    unfold step_at. cbn [fst snd]. rewrite Hi. cbn. apply launches_snoc.
Qed.

Lemma each_caller_launches_at_most_once_witness :
  length (launches (trace (run sound_engine (seq 0 3 ++ seq 0 3)
                             (replicate 3 AtEntry, boot)).2))
  <= length (launches (trace boot)) + at_entry (replicate 3 AtEntry)
  /\ launches (trace (step_at sound_engine 0 (replicate 3 AtEntry, boot)).2)
     = launches (trace boot) ++ [launch sound_engine (trace boot)].
Proof.
  destruct (each_caller_launches_at_most_once sound_engine (seq 0 3 ++ seq 0 3)
              (replicate 3 AtEntry) boot) as (Hbound & _ & _ & Hentry).
  split; [exact Hbound | exact (Hentry eq_refl 0 eq_refl)].
Defined.


(** Ten requests that arrive together, on an engine that works. *)
Example ten_callers :
  length (launches (trace (run sound_engine (seq 0 10 ++ seq 0 10)
                             (replicate 10 AtEntry, boot)).2)) = 10
  /\ at_entry (replicate 10 AtEntry) = 10
  /\ length (launches (trace (run sound_engine (in_turn 0 10)
                                (replicate 10 AtEntry, boot)).2)) = 1.
Proof. repeat split. Qed.

(** A caller suspended on a launch that will resolve holds a handle of
    an engine that was started. *)
Definition task_ok (tr : list event) (t : init_task) : Prop :=
  match t with
  | AwaitingLaunch (Ok h) => In h (engines tr)
  | _ => True
  end.

Definition handle_ok (st : pool) : Prop :=
  (forall b, browser st.2 = Some b -> In b (engines (trace st.2)))
  /\ Forall (task_ok (trace st.2)) st.1.

Lemma task_ok_snoc tr ev t : task_ok tr t -> task_ok (tr ++ [ev]) t.
Proof.
  destruct t as [|[h|e]|r]; cbn; auto.
  intros H. rewrite engines_snoc. apply in_or_app. left. exact H.
Qed.

Lemma handle_ok_step eng i st : handle_ok st -> handle_ok (step_at eng i st).
Proof.
  destruct st as [pl [b t]]. unfold handle_ok, step_at. cbn [fst snd browser trace].
  intros [Hb Hpl].
  destruct (pl !! i) as [task|] eqn:Hi; [|split; assumption].
  pose proof (Forall_lookup_1 _ _ _ _ Hpl Hi) as Htask.
  destruct task as [|[h|e]|r]; cbn [init_step browser trace].
  - destruct b as [b|]; cbn [fst snd browser trace log].
    + split; [exact Hb|]. apply Forall_insert; [exact Hpl | exact I].
    + split; [discriminate|].
      apply Forall_insert.
      * eapply Forall_impl; [exact Hpl|]. intros x. apply task_ok_snoc.
      * destruct (launch eng t) as [h|e]; cbn; [|exact I].
        rewrite engines_snoc. apply in_or_app. right. left. reflexivity.
  - cbn [fst snd browser trace]. split.
    + intros b' [= <-]. exact Htask.
    + apply Forall_insert; [exact Hpl | exact I].
  - cbn [fst snd browser trace]. split; [exact Hb|].
    apply Forall_insert; [exact Hpl | exact I].
  - cbn [fst snd browser trace]. split; [exact Hb|].
    apply Forall_insert; [exact Hpl | exact I].
Qed.

Lemma handle_kept_step eng i st :
  is_Some (browser st.2) -> is_Some (browser (step_at eng i st).2).
Proof.
  destruct st as [pl [b t]]. unfold step_at. cbn [fst snd browser].
  intros Hsome. destruct (pl !! i) as [[|[h|e]|r]|]; cbn; try exact Hsome.
  - destruct b; [exact Hsome | destruct Hsome; discriminate].
  - eauto.
Qed.

Lemma handle_ok_run eng sched st :
  handle_ok st ->
  handle_ok (run eng sched st)
  /\ (is_Some (browser st.2) -> is_Some (browser (run eng sched st).2)).
Proof.
  revert st. induction sched as [|i sched IH]; intros st Hinv; [auto|].
  cbn [run foldl]. fold (run eng sched (step_at eng i st)).
  destruct (IH (step_at eng i st) (handle_ok_step eng i st Hinv)) as [H1 H2].
  split; [exact H1|]. intros Hsome. apply H2, handle_kept_step, Hsome.
Qed.

(** X15. The handle stays sound under every interleaving.  Starting
    with callers none of which is in the middle of a launch, and with a
    handle (if any) that belongs to an engine that was started: the
    handle stored at any later time belongs to an engine that was
    started, and initialization never clears a handle. *)
Theorem handle_always_launched eng sched pl w :
  existsb awaiting pl = false ->
  (forall b, browser w = Some b -> In b (engines (trace w))) ->
  (forall b, browser (run eng sched (pl, w)).2 = Some b ->
             In b (engines (trace (run eng sched (pl, w)).2)))
  /\ (is_Some (browser w) -> is_Some (browser (run eng sched (pl, w)).2)).
Proof.
  intros Hnone Hb.
  assert (handle_ok (pl, w)) as Hinv.
  { split; [exact Hb|]. cbn [fst snd].
    apply Forall_forall. intros t Ht. destruct t as [|r|r]; cbn; auto.
    exfalso. apply list_elem_of_In in Ht.
    assert (existsb awaiting pl = true)
      by (apply existsb_exists; eexists; split; [exact Ht | reflexivity]).
    congruence. }
  destruct (handle_ok_run eng sched (pl, w) Hinv) as [[H1 _] H2].
  split; [exact H1 | exact H2].
Qed.

Lemma handle_always_launched_witness :
  (forall b, browser (run sound_engine [0; 1; 0; 1] ([AtEntry; AtEntry], boot)).2 = Some b ->
             In b (engines (trace (run sound_engine [0; 1; 0; 1]
                                     ([AtEntry; AtEntry], boot)).2)))
  /\ (is_Some (browser warm) ->
      is_Some (browser (run sound_engine [0; 1; 0; 1] ([AtEntry; AtEntry], warm)).2)).
Proof.
  split.
  - apply (handle_always_launched sound_engine [0; 1; 0; 1] [AtEntry; AtEntry] boot);
      [reflexivity | discriminate].
  - apply (handle_always_launched sound_engine [0; 1; 0; 1] [AtEntry; AtEntry] warm);
      [reflexivity | intros b [= <-]; left; reflexivity].
Defined.
